(** * stockdash: the watch-list store and the change metrics of [app1.py]

    A shallow embedding of the Streamlit script [src/app1.py]: the flat-file
    store of tracked stocks ([load_tracked_stocks], [save_tracked_stocks]),
    the per-symbol change metric ([calculate_changes]) over the frame built
    by [get_timeframe_data], the three selection modes of [main], and the
    add / remove-with-confirmation handlers of [main].

    Python values are modelled as follows.
    - [str] is [string]; the characters are code points below 256 and the
      embedding is exact on ASCII text.
    - [float] (the [numpy.float64] scalars that pandas hands out) is the
      kernel's binary64 [float]: arithmetic never raises, a division by zero
      gives an infinity or NaN.
    - [dict] is an association list in insertion order with unique keys.
    - an exception is a value of [exn]; code that may raise returns a
      [result]; code that mutates state and may raise threads the state and
      keeps the mutations done before the exception. *)

From Stdlib Require Import List String Ascii ZArith Bool Lia Floats.
From Stdlib Require Import Permutation Sorted.
Import ListNotations.
Local Open Scope string_scope.

(** ** Python primitives *)

Module Py.

Inductive exn : Type :=
| IndexError
| KeyError (key : string)
| PermissionError
| FetchError (symbol : string).

Inductive result (A : Type) : Type :=
| Ok (a : A)
| Raise (e : exn).
Arguments Ok {A} a.
Arguments Raise {A} e.

Definition bind {A B : Type} (r : result A) (k : A -> result B) : result B :=
  match r with
  | Ok a => k a
  | Raise e => Raise e
  end.

(** [str.isspace] on one character, for the code points below 256. *)
Definition isspace (c : ascii) : bool :=
  let n := nat_of_ascii c in
  ((9 <=? n) && (n <=? 13) || (28 <=? n) && (n <=? 32)
   || (n =? 133) || (n =? 160))%nat.

Fixpoint lstrip (s : string) : string :=
  match s with
  | EmptyString => EmptyString
  | String c s' => if isspace c then lstrip s' else s
  end.

Fixpoint rstrip (s : string) : string :=
  match s with
  | EmptyString => EmptyString
  | String c s' =>
      match rstrip s' with
      | EmptyString => if isspace c then EmptyString else String c EmptyString
      | r => String c r
      end
  end.

(** [s.strip()] *)
Definition strip (s : string) : string := lstrip (rstrip s).

(** [s.split(sep)] for a one-character separator: never the empty list. *)
Fixpoint split (sep : ascii) (s : string) : list string :=
  match s with
  | EmptyString => [EmptyString]
  | String c s' =>
      if Ascii.eqb c sep then EmptyString :: split sep s'
      else match split sep s' with
           | h :: t => String c h :: t
           | [] => [String c EmptyString]
           end
  end.

(** [l[i]] for a non-negative index. *)
Definition getitem {A : Type} (l : list A) (i : nat) : result A :=
  match nth_error l i with
  | Some a => Ok a
  | None => Raise IndexError
  end.

Definition upper_char (c : ascii) : ascii :=
  let n := nat_of_ascii c in
  if ((97 <=? n) && (n <=? 122))%nat then ascii_of_nat (n - 32) else c.

(** [s.upper()], exact on ASCII. *)
Fixpoint upper (s : string) : string :=
  match s with
  | EmptyString => EmptyString
  | String c s' => String (upper_char c) (upper s')
  end.

Definition LF : ascii := "010"%char.
Definition CR : ascii := "013"%char.

(** Iterating a file opened in text mode: the lines, each with its
    terminator; universal newlines, so a line ends at LF, CR or CR LF and
    the terminator is handed out as LF. A last line without terminator is
    handed out as it is. *)
Fixpoint readlines (text : string) : list string :=
  match text with
  | EmptyString => []
  | String c rest =>
      if Ascii.eqb c LF then String LF EmptyString :: readlines rest
      else if Ascii.eqb c CR then
        match rest with
        | String c' rest' =>
            if Ascii.eqb c' LF then String LF EmptyString :: readlines rest'
            else String LF EmptyString :: readlines rest
        | EmptyString => [String LF EmptyString]
        end
      else match readlines rest with
           | line :: lines => String c line :: lines
           | [] => [String c EmptyString]
           end
  end.

(** *** dict: insertion-ordered, keys unique *)

Definition dict (V : Type) : Type := list (string * V).

Definition keys {V : Type} (d : dict V) : list string := map fst d.

Fixpoint get {V : Type} (k : string) (d : dict V) : option V :=
  match d with
  | [] => None
  | (k', v) :: d' => if String.eqb k k' then Some v else get k d'
  end.

(** [k in d] *)
Definition contains {V : Type} (k : string) (d : dict V) : bool :=
  match get k d with Some _ => true | None => false end.

(** [d[k] = v]: an existing key keeps its place, a new one goes last. *)
Fixpoint setitem {V : Type} (k : string) (v : V) (d : dict V) : dict V :=
  match d with
  | [] => [(k, v)]
  | (k', v') :: d' =>
      if String.eqb k k' then (k, v) :: d' else (k', v') :: setitem k v d'
  end.

(** [del d[k]] *)
Definition delitem {V : Type} (k : string) (d : dict V) : result (dict V) :=
  if contains k d
  then Ok (filter (fun kv => negb (String.eqb k (fst kv))) d)
  else Raise (KeyError k).

(** The invariant of a dict: no key twice. *)
Fixpoint unique (l : list string) : bool :=
  match l with
  | [] => true
  | k :: l' => negb (existsb (String.eqb k) l') && unique l'
  end.

Definition wf {V : Type} (d : dict V) : bool := unique (keys d).

End Py.

Import Py.

Notation "x <- r ;; k" := (bind r (fun x => k))
  (at level 61, r at next level, right associativity).

(** ** The file of tracked stocks *)

(** [STOCKS_FILE] on disk: its text when it exists, and whether [open]
    succeeds for reading and for writing. *)
Record file_store : Type := FileStore {
  contents : option string;
  readable : bool;
  writable : bool
}.

Definition COMMA : ascii := ","%char.

(** One iteration of the dict comprehension of [load_tracked_stocks]:
    [line.strip().split(',')[0]: line.strip().split(',')[1]]. *)
Definition load_entry (line : string) : result (string * string) :=
  k <- getitem (split COMMA (strip line)) 0 ;;
  v <- getitem (split COMMA (strip line)) 1 ;;
  Ok (k, v).

Definition load_step (acc : result (dict string)) (line : string)
  : result (dict string) :=
  d <- acc ;; kv <- load_entry line ;; Ok (setitem (fst kv) (snd kv) d).

Definition load_lines (lines : list string) : result (dict string) :=
  fold_left load_step lines (Ok []).

Definition load_tracked_stocks (fs : file_store) : result (dict string) :=
  match contents fs with
  | Some text =>
      if readable fs then load_lines (readlines text) else Raise PermissionError
  | None => Ok []
  end.

(** [f"{symbol},{name}\n"] *)
Definition entry_line (kv : string * string) : string :=
  (fst kv ++ String COMMA (snd kv ++ String LF EmptyString))%string.

Definition dump (stocks : dict string) : string :=
  String.concat EmptyString (map entry_line stocks).

(** [save_tracked_stocks]: [open(..., 'w')] raises on a file that cannot be
    written and leaves it as it was; otherwise the file is rewritten whole. *)
Definition save_tracked_stocks (stocks : dict string) (fs : file_store)
  : result unit * file_store :=
  if writable fs
  then (Ok tt, FileStore (Some (dump stocks)) (readable fs) true)
  else (Raise PermissionError, fs).

(** ** The frame of closing prices *)

Module Pandas.

(** A [Series] of closing prices: (timestamp, price), ascending in time. *)
Definition Series : Type := list (Z * float).

(** A [DataFrame]: the row labels and, per column, one value per row. *)
Record DataFrame : Type := Frame {
  index : list Z;
  columns : dict (list float)
}.

Fixpoint insert_label (t : Z) (idx : list Z) : list Z :=
  match idx with
  | [] => [t]
  | u :: idx' =>
      if (t <? u)%Z then t :: idx
      else if (t =? u)%Z then idx
      else u :: insert_label t idx'
  end.

(** The union of the row labels, ascending. *)
Definition union_index (data : dict Series) : list Z :=
  fold_left
    (fun idx kv => fold_left (fun idx' p => insert_label (fst p) idx') (snd kv) idx)
    data [].

Fixpoint at_label (t : Z) (s : Series) : option float :=
  match s with
  | [] => None
  | (u, v) :: s' => if (t =? u)%Z then Some v else at_label t s'
  end.

(** A series on the rows of the frame: NaN where it has no value. *)
Definition reindex (idx : list Z) (s : Series) : list float :=
  map (fun t => match at_label t s with Some v => v | None => nan end) idx.

(** [pd.DataFrame(data)] for a dict of series: the columns are aligned on
    the union of their labels, nothing is filled in or interpolated. *)
Definition DataFrame_of_dict (data : dict Series) : DataFrame :=
  let idx := union_index data in
  Frame idx (map (fun kv => (fst kv, reindex idx (snd kv))) data).

(** [s.iloc[i]]: from the end for a negative [i]. *)
Definition iloc (s : list float) (i : Z) : result float :=
  if (0 <=? i)%Z then getitem s (Z.to_nat i)
  else if (Z.of_nat (List.length s) + i <? 0)%Z then Raise IndexError
  else getitem s (Z.to_nat (Z.of_nat (List.length s) + i)).

End Pandas.

Import Pandas.

(** ** [get_timeframe_data] *)

(** The arguments of [Ticker.history]: a period or a date range. *)
Inductive window : Type :=
| Period (period : string)
| Range (start_date end_date : option Z).

(** [yf.Ticker(symbol).history(..., interval=interval)['Close']]: the market
    data source, which answers with a series or raises. *)
Definition history_source : Type := string -> window -> string -> result Series.

Definition truthy (period : option string) : bool :=
  match period with
  | Some (String _ _) => true
  | _ => false
  end.

Fixpoint fetch_close (yf : history_source) (symbols : list string)
    (period : option string) (start_date end_date : option Z)
    (interval : string) (stock_data : dict Series) : result (dict Series) :=
  match symbols with
  | [] => Ok stock_data
  | symbol :: rest =>
      hist <- (match period with
               | Some p => if truthy period then yf symbol (Period p) interval
                           else yf symbol (Range start_date end_date) interval
               | None => yf symbol (Range start_date end_date) interval
               end) ;;
      fetch_close yf rest period start_date end_date interval
        (setitem symbol hist stock_data)
  end.

Definition get_timeframe_data (yf : history_source) (symbols : list string)
    (period : option string) (start_date end_date : option Z)
    (interval : string) : result DataFrame :=
  stock_data <- fetch_close yf symbols period start_date end_date interval [] ;;
  Ok (DataFrame_of_dict stock_data).

(** ** [calculate_changes] *)

(** The two choices of the Y-Axis radio. *)
Inductive y_axis_mode : Type :=
| Dollar_Value
| Percentage_Change.

(** The [if y_axis == 'Dollar Value'] of the loop (lines 47-50). *)
Definition change_between (y_axis : y_axis_mode) (start_price end_price : float)
  : float :=
  match y_axis with
  | Dollar_Value => end_price - start_price
  | Percentage_Change => ((end_price - start_price) / start_price) * 100
  end%float.

(** The body of the loop of [calculate_changes] for one column. *)
Definition column_change (y_axis : y_axis_mode) (column : list float)
  : result float :=
  start_price <- iloc column 0 ;;
  end_price <- iloc column (-1) ;;
  Ok (change_between y_axis start_price end_price).

Fixpoint changes_loop (y_axis : y_axis_mode) (cols : dict (list float))
    (changes : dict float) : result (dict float) :=
  match cols with
  | [] => Ok changes
  | (column, values) :: cols' =>
      change <- column_change y_axis values ;;
      changes_loop y_axis cols' (setitem column change changes)
  end.

Definition calculate_changes (df : DataFrame) (y_axis : y_axis_mode)
  : result (dict float) :=
  changes_loop y_axis (columns df) [].

(** Lines 129-135 of [main]: the frame of all tracked stocks for the chosen
    period, and its changes. *)
Definition main_changes (yf : history_source) (stocks : dict string)
    (period : string) (start_date end_date : option Z) (y_axis : y_axis_mode)
  : result (dict float) :=
  let interval := if String.eqb period "1d" then "1m" else "1d" in
  timeframe_data <-
    (if String.eqb period "Custom Date Range"
     then get_timeframe_data yf (keys stocks) None start_date end_date interval
     else get_timeframe_data yf (keys stocks) (Some period) None None interval) ;;
  calculate_changes timeframe_data y_axis.

(** The two calls in a row, for any arguments: fetch the batch, then compute
    its changes. *)
Definition changes_of_batch (yf : history_source) (symbols : list string)
    (period : option string) (start_date end_date : option Z)
    (interval : string) (y_axis : y_axis_mode) : result (dict float) :=
  timeframe_data <-
    get_timeframe_data yf symbols period start_date end_date interval ;;
  calculate_changes timeframe_data y_axis.

(** The window [get_timeframe_data] asks the source for. *)
Definition window_of (period : option string) (start_date end_date : option Z)
  : window :=
  match period with
  | Some (String c p) => Period (String c p)
  | _ => Range start_date end_date
  end.

(** A frame as pandas builds it: distinct columns, one value per row. *)
Definition frame_ok (df : DataFrame) : bool :=
  wf (columns df)
  && forallb (fun kv => (List.length (snd kv) =? List.length (index df))%nat)
       (columns df).

(** ** The selection modes of [main] *)

(** [changes.get] as the sort key. [sorted] walks the keys of [changes]
    itself, so the [None] of a missing key cannot arise; it is written NaN. *)
Definition changes_get (changes : dict float) (symbol : string) : float :=
  match get symbol changes with
  | Some change => change
  | None => nan
  end.

Section Sorted.
Variable A : Type.
Variable key : A -> float.

(** Stable insertion: [x] goes before the first element that is not below
    it, so after none of its equals that came later. *)
Fixpoint insert_sorted (x : A) (l : list A) : list A :=
  match l with
  | [] => [x]
  | y :: l' =>
      if (key y <? key x)%float then y :: insert_sorted x l'
      else x :: l
  end.

(** [sorted(l, key=key)]: ascending and stable. Python compares the keys
    with [<] only; on keys that [<] orders (no NaN) every stable sort
    gives this list. *)
Fixpoint sorted (l : list A) : list A :=
  match l with
  | [] => []
  | x :: l' => insert_sorted x (sorted l')
  end.

(** [sorted(l, key=key, reverse=True)]: CPython reverses the list, sorts
    it and reverses the result, so equal keys keep their order. *)
Definition sorted_reverse (l : list A) : list A := rev (sorted (rev l)).
End Sorted.

Arguments insert_sorted {A} key x l.
Arguments sorted {A} key l.
Arguments sorted_reverse {A} key l.

(** [sorted(changes, key=changes.get, reverse=True)[:10]] *)
Definition top_gainers (changes : dict float) : list string :=
  firstn 10 (sorted_reverse (changes_get changes) (keys changes)).

(** [sorted(changes, key=changes.get)[:10]] *)
Definition top_losers (changes : dict float) : list string :=
  firstn 10 (sorted (changes_get changes) (keys changes)).

(** [d[k]] *)
Definition subscript {V : Type} (d : dict V) (k : string) : result V :=
  match get k d with
  | Some v => Ok v
  | None => Raise (KeyError k)
  end.

(** [[stock for stock in selected if test(changes[stock])]] *)
Fixpoint select_by_change (test : float -> bool) (changes : dict float)
    (selected : list string) : result (list string) :=
  match selected with
  | [] => Ok []
  | stock :: rest =>
      change <- subscript changes stock ;;
      chosen <- select_by_change test changes rest ;;
      Ok (if test change then stock :: chosen else chosen)
  end.

(** The two lists of the Manual Selection branch. *)
Definition manual_selection (selected : list string) (changes : dict float)
  : result (list string * list string) :=
  gainer_stocks <- select_by_change (fun c => 0 <? c)%float changes selected ;;
  loser_stocks <- select_by_change (fun c => c <=? 0)%float changes selected ;;
  Ok (gainer_stocks, loser_stocks).

(** ** [plot_time_series] *)

(** A trace of the figure: its name, the row labels and one value per row. *)
Record trace (N : Type) : Type := Trace {
  trace_name : N;
  trace_x : list Z;
  trace_y : list float
}.
Arguments Trace {N} trace_name trace_x trace_y.
Arguments trace_name {N} t.
Arguments trace_x {N} t.
Arguments trace_y {N} t.

(** A name of the rewritten legend (line 87): the stock and the number that
    the f-string prints with two decimals, a percentage in dollar mode and a
    price in percentage mode. The printing itself is not modelled. *)
Inductive legend : Type :=
| With_percent (stock : string) (percent_change : float)
| With_price (stock : string) (price : float).

Definition legend_stock (l : legend) : string :=
  match l with
  | With_percent stock _ => stock
  | With_price stock _ => stock
  end.

Record figure : Type := Figure {
  fig_title : string;
  xaxis_title : string;
  yaxis_title : string;
  fig_data : list (trace legend)
}.

(** [((df[stock] - start_price) / start_price) * 100], row by row. *)
Definition percent_series (start_price : float) (column : list float)
  : list float :=
  map (fun price => ((price - start_price) / start_price) * 100)%float column.

(** The loop over the selected stocks (lines 58-70): the traces so far and
    the dict [percent_changes]. *)
Fixpoint plot_loop (df : DataFrame) (y_axis : y_axis_mode)
    (selected_stocks : list string) (data : list (trace string))
    (percent_changes : dict float)
  : result (list (trace string) * dict float) :=
  match selected_stocks with
  | [] => Ok (data, percent_changes)
  | stock :: rest =>
      column <- subscript (columns df) stock ;;
      start_price <- iloc column 0 ;;
      end_price <- iloc column (-1) ;;
      let percent_change :=
        (((end_price - start_price) / start_price) * 100)%float in
      let y := match y_axis with
               | Dollar_Value => column
               | Percentage_Change => percent_series start_price column
               end in
      plot_loop df y_axis rest (data ++ [Trace stock (index df) y])%list
        (setitem stock percent_change percent_changes)
  end.

(** The list [new_legend] (lines 84-87). *)
Fixpoint new_legend (df : DataFrame) (y_axis : y_axis_mode)
    (percent_changes : dict float) (data : list (trace string))
  : result (list legend) :=
  match data with
  | [] => Ok []
  | t :: rest =>
      label <-
        (match y_axis with
         | Dollar_Value =>
             percent_change <- subscript percent_changes (trace_name t) ;;
             Ok (With_percent (trace_name t) percent_change)
         | Percentage_Change =>
             column <- subscript (columns df) (trace_name t) ;;
             price <- iloc column (-1) ;;
             Ok (With_price (trace_name t) price)
         end) ;;
      labels <- new_legend df y_axis percent_changes rest ;;
      Ok (label :: labels)
  end.

(** [trace.name = new_legend[i]] for every trace (lines 88-89). *)
Definition rename_traces (data : list (trace string)) (labels : list legend)
  : list (trace legend) :=
  map (fun tl => Trace (snd tl) (trace_x (fst tl)) (trace_y (fst tl)))
    (combine data labels).

(** The figure that [plot_time_series] hands to [st.plotly_chart]. *)
Definition plot_time_series (df : DataFrame) (selected_stocks : list string)
    (y_axis : y_axis_mode) (title : string) : result figure :=
  drawn <- plot_loop df y_axis selected_stocks [] [] ;;
  labels <- new_legend df y_axis (snd drawn) (fst drawn) ;;
  Ok (Figure title "Time"
        (match y_axis with
         | Dollar_Value => "Price ($)"
         | Percentage_Change => "Change (%)"
         end)
        (rename_traces (fst drawn) labels)).

(** What the figure holds for one stock, read off the two loops: the column
    of the stock, the values drawn for it and its legend name. *)
Definition column_of (df : DataFrame) (stock : string) : list float :=
  match get stock (columns df) with
  | Some column => column
  | None => []
  end.

Definition trace_values (y_axis : y_axis_mode) (column : list float)
  : list float :=
  match y_axis with
  | Dollar_Value => column
  | Percentage_Change => percent_series (hd nan column) column
  end.

Definition trace_label (y_axis : y_axis_mode) (stock : string)
    (column : list float) : legend :=
  match y_axis with
  | Dollar_Value =>
      With_percent stock
        (change_between Percentage_Change (hd nan column) (last column nan))
  | Percentage_Change => With_price stock (last column nan)
  end.

Definition trace_of (df : DataFrame) (y_axis : y_axis_mode) (stock : string)
  : trace legend :=
  Trace (trace_label y_axis stock (column_of df stock)) (index df)
    (trace_values y_axis (column_of df stock)).

(** ** What [main] shows for a selection mode (lines 137-158) *)

Inductive selection_mode : Type :=
| Top_Gainers
| Top_Losers
| Manual_Selection.

Inductive shown : Type :=
| Chart (fig : figure)
| Please_select.

(** The charts of one list of stocks, none for the empty list. *)
Definition chart_if_any (df : DataFrame) (stocks : list string)
    (y_axis : y_axis_mode) (title : string) : result (list shown) :=
  match stocks with
  | [] => Ok []
  | _ => fig <- plot_time_series df stocks y_axis title ;; Ok [Chart fig]
  end.

(** [selected_stocks] is the value of the multiselect; it is read in manual
    mode only. *)
Definition show_selection (df : DataFrame) (changes : dict float)
    (y_axis : y_axis_mode) (mode : selection_mode)
    (selected_stocks : list string) : result (list shown) :=
  match mode with
  | Top_Gainers =>
      fig <- plot_time_series df (top_gainers changes) y_axis "Top 10 Gainers" ;;
      Ok [Chart fig]
  | Top_Losers =>
      fig <- plot_time_series df (top_losers changes) y_axis "Top 10 Losers" ;;
      Ok [Chart fig]
  | Manual_Selection =>
      match selected_stocks with
      | [] => Ok [Please_select]
      | _ =>
          lists <- manual_selection selected_stocks changes ;;
          gainers <- chart_if_any df (fst lists) y_axis "Selected Gainers" ;;
          losers <- chart_if_any df (snd lists) y_axis "Selected Losers" ;;
          Ok (gainers ++ losers)%list
      end
  end.

(** The stocks drawn on what is shown, chart after chart. *)
Definition stocks_shown (l : list shown) : list string :=
  flat_map
    (fun s => match s with
              | Chart fig => map (fun t => legend_stock (trace_name t)) (fig_data fig)
              | Please_select => []
              end) l.

(** Row labels strictly ascending. *)
Fixpoint ascending_labels (idx : list Z) : bool :=
  match idx with
  | [] => true
  | t :: idx' =>
      match idx' with
      | [] => true
      | u :: _ => (t <? u)%Z && ascending_labels idx'
      end
  end.

(** ** Session state and the handlers of [main] *)

Record session_state : Type := Session {
  tech_stocks : dict string;
  remove_symbol : option string;
  show_confirmation : bool
}.

(** What the handlers write to the page. *)
Inductive output : Type :=
| Added (symbol name : string)
| Failed_to_add (e : exn)
| Already_tracked (symbol : string).

Record world : Type := World {
  session : session_state;
  disk : file_store;
  page : list output
}.

Definition write (o : output) (w : world) : world :=
  World (session w) (disk w) (page w ++ [o])%list.

Definition set_stocks (stocks : dict string) (w : world) : world :=
  World (Session stocks (remove_symbol (session w)) (show_confirmation (session w)))
        (disk w) (page w).

Definition set_confirmation (b : bool) (w : world) : world :=
  World (Session (tech_stocks (session w)) (remove_symbol (session w)) b)
        (disk w) (page w).

Definition set_disk (fs : file_store) (w : world) : world :=
  World (session w) fs (page w).

(** [yf.Ticker(symbol).info], its string fields. *)
Definition info_source : Type := string -> result (dict string).

(** The Add Stock button (lines 163-176). The [try] block catches every
    exception; what was assigned before the exception stays assigned. *)
Definition add_stock (yf_info : info_source) (new_stock : string) (w : world)
  : world :=
  match new_stock with
  | EmptyString => w
  | _ =>
      let new_stock_upper := upper new_stock in
      if negb (contains new_stock_upper (tech_stocks (session w))) then
        match yf_info new_stock_upper with
        | Raise e => write (Failed_to_add e) w
        | Ok stock_info =>
            match subscript stock_info "longName" with
            | Raise e => write (Failed_to_add e) w
            | Ok long_name =>
                let w1 :=
                  set_stocks
                    (setitem new_stock_upper long_name (tech_stocks (session w)))
                    w in
                match save_tracked_stocks (tech_stocks (session w1)) (disk w1) with
                | (Ok _, fs) => write (Added new_stock_upper long_name) (set_disk fs w1)
                | (Raise e, fs) => write (Failed_to_add e) (set_disk fs w1)
                end
            end
        end
      else write (Already_tracked new_stock_upper) w
  end.

(** A Remove button of the table (lines 208-210). *)
Definition request_removal (symbol : string) (w : world) : world :=
  World (Session (tech_stocks (session w)) (Some symbol) true) (disk w) (page w).

(** The Yes button (lines 216-220); it is on the page only while
    [show_confirmation] holds. Nothing catches an exception here: the run
    stops and the session keeps what was assigned before. *)
Definition confirm_remove (w : world) : result unit * world :=
  if show_confirmation (session w) then
    let symbol := match remove_symbol (session w) with
                  | Some s => s
                  | None => "None"
                  end in
    match delitem symbol (tech_stocks (session w)) with
    | Raise e => (Raise e, w)
    | Ok stocks =>
        let w1 := set_stocks stocks w in
        match save_tracked_stocks stocks (disk w1) with
        | (Raise e, fs) => (Raise e, set_disk fs w1)
        | (Ok _, fs) => (Ok tt, set_confirmation false (set_disk fs w1))
        end
    end
  else (Ok tt, w).

(** The No button (lines 221-222). *)
Definition cancel_remove (w : world) : world :=
  if show_confirmation (session w) then set_confirmation false w else w.

(** ** Field shapes the flat file can hold *)

Fixpoint has_char (c : ascii) (s : string) : bool :=
  match s with
  | EmptyString => false
  | String c' s' => Ascii.eqb c' c || has_char c s'
  end.

(** No comma and no line terminator inside. *)
Definition plain (s : string) : bool :=
  negb (has_char COMMA s) && negb (has_char LF s) && negb (has_char CR s).

Definition no_leading_space (s : string) : bool :=
  match s with
  | EmptyString => true
  | String c _ => negb (isspace c)
  end.

Definition no_trailing_space (s : string) : bool := String.eqb (rstrip s) s.

(** An entry that [load_tracked_stocks] reads back as it was written. *)
Definition clean_entry (kv : string * string) : bool :=
  plain (fst kv) && plain (snd kv)
  && no_leading_space (fst kv) && no_trailing_space (snd kv).

Definition clean (stocks : dict string) : bool := forallb clean_entry stocks.

Definition NL : string := String LF EmptyString.

(** ** What a ranking is *)

(** Keys never going down, resp. never going up, along the list. *)
Definition ascending {A : Type} (key : A -> float) (l : list A) : Prop :=
  StronglySorted (fun a b => (key a <=? key b)%float = true) l.

Definition descending {A : Type} (key : A -> float) (l : list A) : Prop :=
  StronglySorted (fun a b => (key b <=? key a)%float = true) l.

(** The elements whose key equals [c] (Python's [==]), in list order. *)
Definition tied {A : Type} (key : A -> float) (c : float) (l : list A)
  : list A :=
  filter (fun a => (key a =? c)%float) l.

(** No key is NaN. *)
Definition comparable {A : Type} (key : A -> float) (l : list A) : bool :=
  forallb (fun a => negb (is_nan (key a))) l.

(** ** Concrete stores *)

Definition plain_disk (text : string) : file_store :=
  FileStore (Some text) true true.

(** A display name with a comma, as the metadata source gives it. *)
Definition amzn_stocks : dict string := [("AMZN", "Amazon.com, Inc.")].

(** A display name that ends in a space. *)
Definition padded_stocks : dict string := [("AAPL", "Apple Inc. ")].

Definition two_stocks : dict string :=
  [("AAPL", "Apple Inc."); ("XOM", "Exxon Mobil")].

(** A file with a line that has no comma. *)
Definition corrupt_disk : file_store := plain_disk ("AAPL" ++ NL).

(** No file yet, in a place where one can be created. *)
Definition no_disk : file_store := FileStore None true true.

(** ** Concrete frames and market-data sources *)

(** A: 100 to 110 (+10 dollars, +10%); B: 10 to 15 (+5 dollars, +50%). *)
Definition pair_frame : DataFrame :=
  Frame [1; 2]%Z [("A", [100; 110]%float); ("B", [10; 15]%float)].

(** One row, price zero. *)
Definition zero_frame : DataFrame := Frame [1]%Z [("A", [0]%float)].

(** One row, price 42. *)
Definition single_frame : DataFrame := Frame [1]%Z [("A", [42]%float)].

Definition rising : Series := [(1%Z, 100%float); (2%Z, 110%float)].


(** XOM has no rows. *)
Definition sparse_source : history_source :=
  fun symbol _ _ => if String.eqb symbol "XOM" then Ok [] else Ok rising.

(** ** Concrete sessions *)

Definition tracking_two : world :=
  World (Session two_stocks None false) (plain_disk (dump two_stocks)) [].

(** Nothing tracked yet, and the file cannot be written. *)
Definition read_only_world : world :=
  World (Session [] None false) (FileStore None true false) [].

(** The metadata source knows every symbol as Apple Inc. *)
Definition apple_info : info_source :=
  fun _ => Ok [("longName", "Apple Inc.")].

(** The AAPL line of the file, without its name. *)
Definition comma_less_disk : file_store := plain_disk ("AAPL,Apple Inc." ++ NL ++ "XOM" ++ NL).

(** Both stocks trade at the same two times. *)
Definition paired_source : history_source :=
  fun symbol _ _ =>
    if String.eqb symbol "XOM"
    then Ok [(1%Z, 100%float); (2%Z, 95%float)]
    else Ok rising.

Definition paired_series (symbol : string) : Series :=
  if String.eqb symbol "XOM"
  then [(1%Z, 100%float); (2%Z, 95%float)]
  else rising.

(** A frame with a column without rows after a column with rows. *)
Definition ragged_frame : DataFrame :=
  Frame [1]%Z [("A", [42]%float); ("B", [])].

(** B has no price in the first row. *)
Definition late_frame : DataFrame :=
  Frame [1; 2]%Z [("A", [100; 110]%float); ("B", [nan; 15]%float)].

(** Twelve stocks, the change of each its rank from 1 to 12. *)
Definition twelve_changes : dict float :=
  [("S01", 1); ("S02", 2); ("S03", 3); ("S04", 4); ("S05", 5); ("S06", 6);
   ("S07", 7); ("S08", 8); ("S09", 9); ("S10", 10); ("S11", 11);
   ("S12", 12)]%float.

(** The changes of [late_frame] in dollar mode. *)
Definition late_changes : dict float := [("A", 10%float); ("B", nan)].


(** Two stocks tracked, and the file cannot be written. *)
Definition read_only_two : world :=
  World (Session two_stocks None false)
        (FileStore (Some (dump two_stocks)) true false) [].

(** The series of [paired_source], as the dict of a batch. *)
Definition paired_data : dict Series :=
  [("AAPL", rising); ("XOM", [(1%Z, 100%float); (2%Z, 95%float)])].

(** * Properties *)

(** ** Strings *)

Lemma append_nil_r (s : string) : s ++ "" = s.
Proof. induction s; simpl; congruence. Qed.

Lemma append_assoc (a b c : string) : (a ++ b) ++ c = a ++ (b ++ c).
Proof. induction a; simpl; congruence. Qed.

Lemma has_char_append (c : ascii) (a b : string) :
  has_char c (a ++ b) = has_char c a || has_char c b.
Proof.
  induction a as [|x a IH]; simpl; [reflexivity|].
  rewrite IH. apply orb_assoc.
Qed.

Lemma rstrip_spaces_after (s t : string) :
  rstrip t = "" -> rstrip (s ++ t) = rstrip s.
Proof.
  intros Ht. induction s as [|c s IH]; simpl; [assumption|].
  now rewrite IH.
Qed.

Lemma rstrip_before (s t : string) :
  rstrip t <> "" -> rstrip (s ++ t) = s ++ rstrip t.
Proof.
  intros Ht. induction s as [|c s IH]; simpl; [reflexivity|].
  rewrite IH. destruct s; simpl; [|reflexivity].
  destruct (rstrip t); [contradiction|reflexivity].
Qed.

Lemma lstrip_no_leading (s : string) :
  no_leading_space s = true -> lstrip s = s.
Proof.
  destruct s as [|c s]; simpl; [reflexivity|].
  now destruct (isspace c).
Qed.

Lemma split_plain (c : ascii) (s : string) :
  has_char c s = false -> split c s = [s].
Proof.
  induction s as [|x s IH]; simpl; [reflexivity|].
  intros H. apply orb_false_elim in H as [Hx Hs].
  rewrite Hx, (IH Hs). reflexivity.
Qed.

Lemma split_at_first (c : ascii) (a b : string) :
  has_char c a = false -> split c (a ++ String c b) = a :: split c b.
Proof.
  induction a as [|x a IH]; simpl.
  - intros _. now rewrite Ascii.eqb_refl.
  - intros H. apply orb_false_elim in H as [Hx Ha].
    rewrite Hx, (IH Ha). reflexivity.
Qed.

Lemma readlines_line (body rest : string) :
  has_char LF body = false -> has_char CR body = false ->
  readlines (body ++ String LF rest) = (body ++ NL) :: readlines rest.
Proof.
  induction body as [|x body IH]; simpl; [reflexivity|].
  intros H1 H2.
  apply orb_false_elim in H1 as [Hx1 Hb1].
  apply orb_false_elim in H2 as [Hx2 Hb2].
  rewrite Hx1, Hx2, (IH Hb1 Hb2). reflexivity.
Qed.

(** ** The dict operations *)

Lemma get_None_existsb {V : Type} (k : string) (d : dict V) :
  existsb (String.eqb k) (keys d) = false -> get k d = None.
Proof.
  induction d as [|[k' v] d IH]; simpl; [reflexivity|].
  intros H. apply orb_false_elim in H as [Hk Hd].
  rewrite Hk. auto.
Qed.

Lemma setitem_new {V : Type} (k : string) (v : V) (d : dict V) :
  existsb (String.eqb k) (keys d) = false -> setitem k v d = (d ++ [(k, v)])%list.
Proof.
  induction d as [|[k' v'] d IH]; simpl; [reflexivity|].
  intros H. apply orb_false_elim in H as [Hk Hd].
  rewrite Hk, (IH Hd). reflexivity.
Qed.

Lemma unique_app_cons (k : string) (l1 l2 : list string) :
  unique (l1 ++ k :: l2)%list = true ->
  existsb (String.eqb k) l1 = false /\ unique ((l1 ++ [k]) ++ l2)%list = true.
Proof.
  rewrite <- app_assoc. simpl. intros H. split; [|assumption].
  induction l1 as [|x l1 IH]; simpl in *; [reflexivity|].
  apply andb_true_iff in H as [Hx Hu].
  rewrite (IH Hu), orb_false_r.
  apply negb_true_iff in Hx. rewrite existsb_app in Hx.
  apply orb_false_elim in Hx as [_ Hx]. simpl in Hx.
  apply orb_false_elim in Hx as [Hx _].
  now rewrite String.eqb_sym.
Qed.

(** ** Loading what was saved *)

Lemma load_entry_clean (kv : string * string) :
  clean_entry kv = true -> load_entry (entry_line kv) = Ok kv.
Proof.
  destruct kv as [symbol name]. unfold clean_entry, plain, no_trailing_space. simpl.
  rewrite !andb_true_iff, !negb_true_iff, String.eqb_eq.
  intros [[[[[Hs1 Hs2] Hs3] [[Hn1 Hn2] Hn3]] Hlead] Htrail].
  assert (Hstrip : strip (entry_line (symbol, name)) = symbol ++ String COMMA name).
  { unfold strip, entry_line. simpl.
    assert (Hr : rstrip (String COMMA (name ++ NL)) = String COMMA name).
    { simpl. rewrite (rstrip_spaces_after name NL eq_refl), Htrail.
      now destruct name. }
    rewrite rstrip_before; unfold NL in *; rewrite Hr; [|discriminate].
    destruct symbol as [|c symbol]; [reflexivity|].
    simpl in *. now destruct (isspace c). }
  unfold load_entry. rewrite Hstrip, (split_at_first _ _ _ Hs1), (split_plain _ _ Hn1).
  reflexivity.
Qed.

Lemma dump_cons (kv : string * string) (stocks : dict string) :
  dump (kv :: stocks) = entry_line kv ++ dump stocks.
Proof.
  unfold dump. simpl.
  destruct (map entry_line stocks); simpl; [now rewrite append_nil_r|reflexivity].
Qed.

Lemma entry_line_body (symbol name rest : string) :
  entry_line (symbol, name) ++ rest
  = (symbol ++ String COMMA name) ++ String LF rest.
Proof.
  unfold entry_line. simpl. rewrite !append_assoc. simpl.
  now rewrite append_assoc.
Qed.

Lemma readlines_dump (stocks : dict string) :
  clean stocks = true -> readlines (dump stocks) = map entry_line stocks.
Proof.
  induction stocks as [|[symbol name] stocks IH]; [reflexivity|].
  intros H. simpl in H. apply andb_true_iff in H as [Hkv Hc].
  unfold clean_entry, plain in Hkv. simpl in Hkv.
  rewrite !andb_true_iff, !negb_true_iff in Hkv.
  destruct Hkv as [[[[[Hs1 Hs2] Hs3] [[Hn1 Hn2] Hn3]] _] _].
  rewrite dump_cons, entry_line_body, readlines_line.
  - rewrite (IH Hc). simpl. f_equal.
    unfold entry_line, NL. simpl. now rewrite append_assoc.
  - rewrite has_char_append. simpl. now rewrite Hs2, Hn2.
  - rewrite has_char_append. simpl. now rewrite Hs3, Hn3.
Qed.

Lemma load_lines_from (d stocks : dict string) :
  clean stocks = true -> unique (keys (d ++ stocks)%list) = true ->
  fold_left load_step (map entry_line stocks) (Ok d) = Ok (d ++ stocks)%list.
Proof.
  revert d. induction stocks as [|[symbol name] stocks IH]; intros d Hc Hu; simpl.
  - now rewrite app_nil_r.
  - simpl in Hc. apply andb_true_iff in Hc as [Hkv Hc].
    unfold load_step at 1. simpl. rewrite (load_entry_clean _ Hkv). simpl.
    unfold keys in Hu. rewrite map_app in Hu. simpl in Hu.
    apply unique_app_cons in Hu as [Hnew Hu].
    rewrite (setitem_new _ _ _ Hnew), IH.
    + now rewrite <- app_assoc.
    + assumption.
    + unfold keys. now rewrite !map_app in *.
Qed.

Lemma load_dump (stocks : dict string) :
  wf stocks = true -> clean stocks = true ->
  load_lines (readlines (dump stocks)) = Ok stocks.
Proof.
  intros Hwf Hc. rewrite (readlines_dump _ Hc).
  apply (load_lines_from [] stocks Hc Hwf).
Qed.


(** Two lines on disk, two entries in order. *)
Example load_two_lines : load_tracked_stocks (FileStore (Some "AAPL,Apple Inc.
MSFT,Microsoft
") true true) = Ok [("AAPL", "Apple Inc."); ("MSFT", "Microsoft")].
Proof. reflexivity. Qed.

(** The percentage changes of the two columns. *)
Example percent_changes_of_pair :
  calculate_changes (Frame [1;2]%Z [("A", [100; 110]%float); ("B", [10;15]%float)]) Percentage_Change
  = Ok [("A", 10%float); ("B", 50%float)].
Proof. vm_compute. reflexivity. Qed.

(** Equal changes keep their insertion order in both rankings. *)
Example ranking_with_ties :
  top_gainers [("A", 10%float); ("B", 50%float); ("C", 10%float)] = ["B"; "A"; "C"]
  /\ top_losers [("A", 10%float); ("B", 50%float); ("C", 10%float)] = ["A"; "C"; "B"].
Proof. vm_compute. split; reflexivity. Qed.

(** ** Corrupt and missing files *)

Lemma load_entry_no_comma (line : string) :
  has_char COMMA (strip line) = false -> load_entry line = Raise IndexError.
Proof.
  intros H. unfold load_entry. now rewrite (split_plain _ _ H).
Qed.

Lemma load_entry_raises (line : string) (e : exn) :
  load_entry line = Raise e -> e = IndexError.
Proof.
  unfold load_entry.
  destruct (split COMMA (strip line)) as [|k [|v fields]]; simpl; congruence.
Qed.

Lemma load_step_raise (lines : list string) (e : exn) :
  fold_left load_step lines (Raise e) = Raise e.
Proof. induction lines; simpl; auto. Qed.

Lemma load_lines_corrupt (lines : list string) :
  forall d : dict string,
  (exists line, In line lines /\ has_char COMMA (strip line) = false) ->
  fold_left load_step lines (Ok d) = Raise IndexError.
Proof.
  induction lines as [|l lines IH]; intros d [line [Hin Hbad]]; [contradiction|].
  simpl. destruct (load_entry l) as [kv|e] eqn:Hl.
  - apply IH. destruct Hin as [->|Hin]; [|eauto].
    rewrite (load_entry_no_comma _ Hbad) in Hl. discriminate.
  - rewrite (load_entry_raises _ _ Hl). apply load_step_raise.
Qed.

(** ** The order of binary64 floats *)

Lemma SFcompare_antisym (x y : spec_float) :
  SFcompare y x = option_map CompOpp (SFcompare x y).
Proof.
  destruct x as [sx|sx| |sx mx ex], y as [sy|sy| |sy my ey]; simpl;
    try reflexivity;
    try (destruct sx; reflexivity); try (destruct sy; reflexivity);
    try (destruct sx, sy; reflexivity).
  change (Pos.compare_cont Eq) with Pos.compare.
  rewrite (Z.compare_antisym ex ey), (Pos.compare_antisym mx my).
  destruct sx, sy; try reflexivity.
  all: destruct (ex ?= ey)%Z; simpl; reflexivity.
Qed.

Lemma SFcompare_None (x y : spec_float) :
  SFcompare x y = None -> x = S754_nan \/ y = S754_nan.
Proof.
  destruct x as [sx|sx| |sx mx ex], y as [sy|sy| |sy my ey]; simpl;
    auto; discriminate.
Qed.

Lemma SFleb_trans (x y z : spec_float) :
  SFleb x y = true -> SFleb y z = true -> SFleb x z = true.
Proof.
  unfold SFleb.
  destruct x as [sx|sx| |sx mx ex], y as [sy|sy| |sy my ey],
           z as [sz|sz| |sz mz ez]; simpl;
    try discriminate; try reflexivity;
    try (destruct sx; simpl; try discriminate; try reflexivity);
    try (destruct sy; simpl; try discriminate; try reflexivity);
    try (destruct sz; simpl; try discriminate; try reflexivity).
  all: change (Pos.compare_cont Eq) with Pos.compare.
  all: destruct (Z.compare_spec ex ey), (Z.compare_spec ey ez),
         (Z.compare_spec ex ez);
    simpl; try discriminate; try reflexivity; try lia.
  all: subst.
  all: destruct (Pos.compare_spec mx my), (Pos.compare_spec my mz),
         (Pos.compare_spec mx mz);
    simpl; try discriminate; try reflexivity; try lia.
Qed.

Lemma SFcompare_refl (x : spec_float) :
  x <> S754_nan -> SFcompare x x = Some Eq.
Proof.
  destruct x as [sx|sx| |sx mx ex]; simpl; intros H;
    try reflexivity; try congruence.
  - now destruct sx.
  - change (Pos.compare_cont Eq) with Pos.compare.
    rewrite Z.compare_refl, Pos.compare_refl. now destruct sx.
Qed.

Lemma is_nan_spec (x : float) :
  is_nan x = true <-> Prim2SF x = S754_nan.
Proof.
  unfold is_nan. rewrite eqb_spec, negb_true_iff. unfold SFeqb. split.
  - intros H. destruct (Prim2SF x) eqn:E; try reflexivity;
      rewrite SFcompare_refl in H; discriminate.
  - intros ->. reflexivity.
Qed.

Lemma not_nan_spec (x : float) :
  is_nan x = false -> Prim2SF x <> S754_nan.
Proof.
  intros H E. apply is_nan_spec in E. congruence.
Qed.

Lemma float_ltb_leb (x y : float) :
  is_nan x = false -> is_nan y = false -> (x <? y)%float = negb (y <=? x)%float.
Proof.
  intros Hx Hy. rewrite ltb_spec, leb_spec. unfold SFltb, SFleb.
  rewrite (SFcompare_antisym (Prim2SF x) (Prim2SF y)).
  destruct (SFcompare (Prim2SF x) (Prim2SF y)) as [[]|] eqn:E; try reflexivity.
  apply SFcompare_None in E as [E|E];
    [apply not_nan_spec in Hx|apply not_nan_spec in Hy]; contradiction.
Qed.

Lemma float_eqb_leb (x y : float) :
  (x =? y)%float = ((x <=? y) && (y <=? x))%float.
Proof.
  rewrite eqb_spec, !leb_spec. unfold SFeqb, SFleb.
  rewrite (SFcompare_antisym (Prim2SF x) (Prim2SF y)).
  now destruct (SFcompare (Prim2SF x) (Prim2SF y)) as [[]|].
Qed.

Lemma float_leb_trans (x y z : float) :
  (x <=? y)%float = true -> (y <=? z)%float = true -> (x <=? z)%float = true.
Proof. rewrite !leb_spec. apply SFleb_trans. Qed.

Lemma float_leb_total (x y : float) :
  is_nan x = false -> is_nan y = false ->
  (x <=? y)%float = true \/ (y <=? x)%float = true.
Proof.
  intros Hx Hy. destruct (y <=? x)%float eqn:E; [now right|left].
  pose proof (float_ltb_leb x y Hx Hy) as H. rewrite E in H. simpl in H.
  rewrite ltb_spec in H. rewrite leb_spec. unfold SFltb in H. unfold SFleb.
  now destruct (SFcompare (Prim2SF x) (Prim2SF y)) as [[]|].
Qed.

(** ** [sorted] is a stable sort *)

Section SortedFacts.
Variable A : Type.
Variable key : A -> float.

Lemma insert_sorted_perm (x : A) (l : list A) :
  Permutation (insert_sorted key x l) (x :: l).
Proof.
  induction l as [|y l IH]; simpl; [reflexivity|].
  destruct (key y <? key x)%float; [|reflexivity].
  rewrite IH. apply perm_swap.
Qed.

Lemma sorted_perm (l : list A) : Permutation (sorted key l) l.
Proof.
  induction l as [|x l IH]; simpl; [reflexivity|].
  rewrite insert_sorted_perm. now constructor.
Qed.

Lemma sorted_reverse_perm (l : list A) :
  Permutation (sorted_reverse key l) l.
Proof.
  unfold sorted_reverse.
  rewrite <- Permutation_rev, sorted_perm. symmetry. apply Permutation_rev.
Qed.

Lemma comparable_cons (x : A) (l : list A) :
  comparable key (x :: l) = true ->
  is_nan (key x) = false /\ comparable key l = true.
Proof.
  unfold comparable. simpl. rewrite andb_true_iff, negb_true_iff. tauto.
Qed.

Lemma comparable_perm (l l' : list A) :
  Permutation l l' -> comparable key l = true -> comparable key l' = true.
Proof.
  unfold comparable. rewrite !forallb_forall. intros P H a Ha.
  apply H. now apply (Permutation_in a (Permutation_sym P)).
Qed.

Lemma comparable_in (x : A) (l : list A) :
  comparable key l = true -> In x l -> is_nan (key x) = false.
Proof.
  unfold comparable. rewrite forallb_forall. intros H Hx.
  apply negb_true_iff. now apply H.
Qed.

Lemma insert_sorted_ascending (x : A) (l : list A) :
  is_nan (key x) = false -> comparable key l = true ->
  ascending key l -> ascending key (insert_sorted key x l).
Proof.
  unfold ascending. intros Hx Hl Hs.
  induction Hs as [|y l Hs IH Hy]; simpl; [repeat constructor|].
  apply comparable_cons in Hl as [Hny Hl].
  rewrite (float_ltb_leb _ _ Hny Hx).
  destruct (key x <=? key y)%float eqn:E; simpl.
  - constructor; [now constructor|].
    constructor; [assumption|].
    eapply Forall_impl; [|exact Hy]. intros z Hz.
    now apply (float_leb_trans _ _ _ E).
  - constructor; [now apply IH|].
    apply (Permutation_Forall (Permutation_sym (insert_sorted_perm x l))).
    constructor; [|assumption].
    destruct (float_leb_total _ _ Hny Hx); congruence.
Qed.

Lemma sorted_ascending (l : list A) :
  comparable key l = true -> ascending key (sorted key l).
Proof.
  induction l as [|x l IH]; simpl; intros H; [constructor|].
  apply comparable_cons in H as [Hx Hl].
  apply insert_sorted_ascending; auto.
  apply (comparable_perm _ _ (Permutation_sym (sorted_perm l)) Hl).
Qed.

Lemma StronglySorted_snoc (R : A -> A -> Prop) (l : list A) (x : A) :
  StronglySorted R l -> Forall (fun y => R y x) l ->
  StronglySorted R (l ++ [x]).
Proof.
  induction 1 as [|y l Hs IH Hy]; simpl; intros Hx.
  - repeat constructor.
  - inversion_clear Hx as [|? ? Hyx Hlx]. constructor; [now apply IH|].
    apply Forall_app. split; [assumption|now constructor].
Qed.

Lemma ascending_rev (l : list A) :
  ascending key l -> descending key (rev l).
Proof.
  unfold ascending, descending. induction 1 as [|x l Hs IH Hx]; simpl.
  - constructor.
  - apply StronglySorted_snoc; [assumption|].
    rewrite Forall_forall in *. intros y Hy. apply Hx. now apply in_rev.
Qed.

Lemma sorted_reverse_descending (l : list A) :
  comparable key l = true -> descending key (sorted_reverse key l).
Proof.
  intros H. apply ascending_rev, sorted_ascending.
  apply (comparable_perm _ _ (Permutation_rev l) H).
Qed.

(** Stability: the elements with one key keep their order. *)

Lemma tied_cons (c : float) (x : A) (l : list A) :
  tied key c (x :: l)
  = if (key x =? c)%float then x :: tied key c l else tied key c l.
Proof. reflexivity. Qed.

Lemma insert_sorted_tied (c : float) (x : A) (l : list A) :
  is_nan (key x) = false -> comparable key l = true ->
  tied key c (insert_sorted key x l) = tied key c (x :: l).
Proof.
  intros Hx. induction l as [|y l IH]; intros Hl; [reflexivity|].
  apply comparable_cons in Hl as [Hy Hl]. simpl insert_sorted.
  rewrite (float_ltb_leb _ _ Hy Hx).
  destruct (key x <=? key y)%float eqn:E; simpl negb; cbv iota;
    [reflexivity|].
  rewrite !tied_cons, (IH Hl), tied_cons.
  destruct (key x =? c)%float eqn:Ex, (key y =? c)%float eqn:Ey;
    try reflexivity.
  rewrite float_eqb_leb, andb_true_iff in Ex, Ey.
  destruct Ex as [Ex _], Ey as [_ Ey].
  rewrite (float_leb_trans _ _ _ Ex Ey) in E. discriminate.
Qed.

Lemma sorted_tied (c : float) (l : list A) :
  comparable key l = true -> tied key c (sorted key l) = tied key c l.
Proof.
  induction l as [|x l IH]; intros H; [reflexivity|].
  apply comparable_cons in H as [Hx Hl]. simpl sorted.
  rewrite insert_sorted_tied; auto.
  - rewrite !tied_cons. now rewrite (IH Hl).
  - apply (comparable_perm _ _ (Permutation_sym (sorted_perm l)) Hl).
Qed.

Lemma tied_rev (c : float) (l : list A) :
  tied key c (rev l) = rev (tied key c l).
Proof.
  unfold tied. induction l as [|x l IH]; simpl; [reflexivity|].
  rewrite filter_app, IH. simpl.
  destruct (key x =? c)%float; simpl; [reflexivity|apply app_nil_r].
Qed.

Lemma sorted_reverse_tied (c : float) (l : list A) :
  comparable key l = true ->
  tied key c (sorted_reverse key l) = tied key c l.
Proof.
  intros H. unfold sorted_reverse.
  rewrite tied_rev, sorted_tied, tied_rev, rev_involutive; [reflexivity|].
  apply (comparable_perm _ _ (Permutation_rev l) H).
Qed.
End SortedFacts.

(** ** [calculate_changes] *)

Lemma last_cons_default (l : list float) (a x y : float) :
  last (a :: l) x = last (a :: l) y.
Proof.
  revert a. induction l as [|b l IH]; intros a; [reflexivity|].
  change (last (b :: l) x = last (b :: l) y). apply IH.
Qed.

Lemma nth_error_last (l : list float) (x : float) :
  nth_error (x :: l) (List.length l) = Some (last l x).
Proof.
  revert x. induction l as [|y l IH]; intros x; [reflexivity|].
  simpl List.length. rewrite nth_error_cons_succ, IH.
  destruct l as [|z l]; [reflexivity|]. f_equal.
  exact (last_cons_default l z y x).
Qed.

Lemma iloc_first (x : float) (l : list float) : iloc (x :: l) 0 = Ok x.
Proof. reflexivity. Qed.

Lemma iloc_last (x : float) (l : list float) :
  iloc (x :: l) (-1) = Ok (last l x).
Proof.
  unfold iloc. simpl (0 <=? -1)%Z. cbv iota.
  replace (Z.of_nat (List.length (x :: l)) + -1)%Z with (Z.of_nat (List.length l))
    by (simpl List.length; lia).
  destruct (Z.ltb_spec (Z.of_nat (List.length l)) 0); [lia|].
  unfold getitem. now rewrite Nat2Z.id, nth_error_last.
Qed.

Lemma column_change_cons (y_axis : y_axis_mode) (x : float) (l : list float) :
  column_change y_axis (x :: l) = Ok (change_between y_axis x (last l x)).
Proof.
  unfold column_change. now rewrite iloc_first, iloc_last.
Qed.

Lemma column_change_nil (y_axis : y_axis_mode) :
  column_change y_axis [] = Raise IndexError.
Proof. reflexivity. Qed.

Lemma get_app_l {V : Type} (k : string) (v : V) (d d' : dict V) :
  get k d = Some v -> get k (d ++ d')%list = Some v.
Proof.
  induction d as [|[k' v'] d IH]; simpl; [discriminate|].
  destruct (String.eqb k k'); auto.
Qed.

Lemma get_app_new {V : Type} (k : string) (v : V) (d : dict V) :
  existsb (String.eqb k) (keys d) = false ->
  get k (d ++ [(k, v)])%list = Some v.
Proof.
  induction d as [|[k' v'] d IH]; simpl.
  - now rewrite String.eqb_refl.
  - intros H. apply orb_false_elim in H as [Hk Hd]. rewrite Hk. auto.
Qed.

Lemma changes_loop_spec (y_axis : y_axis_mode) (cols : dict (list float)) :
  forall acc changes : dict float,
  unique (keys acc ++ keys cols)%list = true ->
  changes_loop y_axis cols acc = Ok changes ->
  keys changes = (keys acc ++ keys cols)%list
  /\ (forall k v, get k acc = Some v -> get k changes = Some v)
  /\ (forall column values, In (column, values) cols ->
      exists c, column_change y_axis values = Ok c
                /\ get column changes = Some c).
Proof.
  induction cols as [|[k vals] cols IH]; intros acc changes Hu Hrun.
  - simpl in *. injection Hrun as <-. rewrite app_nil_r.
    repeat split; auto. contradiction.
  - simpl in Hrun. destruct (column_change y_axis vals) as [c|e] eqn:Hc;
      [|discriminate].
    simpl in Hrun, Hu. apply unique_app_cons in Hu as [Hnew Hu].
    rewrite (setitem_new _ _ _ Hnew) in Hrun.
    destruct (IH (acc ++ [(k, c)])%list changes) as (Hk & Hacc & Hcols); auto.
    { unfold keys. rewrite map_app. exact Hu. }
    split; [|split].
    + rewrite Hk. unfold keys. rewrite map_app, <- app_assoc. reflexivity.
    + intros k0 v Hget. apply Hacc. now apply get_app_l.
    + intros column values [Heq|Hin].
      * injection Heq as <- <-. exists c. split; [assumption|].
        apply Hacc. now apply get_app_new.
      * now apply Hcols.
Qed.

Lemma changes_loop_total (y_axis : y_axis_mode) (cols : dict (list float)) :
  forall acc : dict float,
  (forall column values, In (column, values) cols -> values <> []) ->
  exists changes, changes_loop y_axis cols acc = Ok changes.
Proof.
  induction cols as [|[k vals] cols IH]; intros acc Hne; simpl.
  - now exists acc.
  - destruct vals as [|x vals]; [now destruct (Hne k []); [left|]|].
    rewrite column_change_cons. simpl. apply IH.
    intros column values Hin. apply (Hne column values). now right.
Qed.

Lemma get_In {V : Type} (k : string) (v : V) (d : dict V) :
  get k d = Some v -> In (k, v) d.
Proof.
  induction d as [|[k' v'] d IH]; simpl; [discriminate|].
  destruct (String.eqb_spec k k') as [->|_]; [|auto].
  intros [= ->]. now left.
Qed.

Lemma frame_ok_columns (df : DataFrame) (column : string) (x : float)
    (l : list float) :
  frame_ok df = true -> In (column, x :: l) (columns df) ->
  forall column' values, In (column', values) (columns df) -> values <> [].
Proof.
  unfold frame_ok. rewrite andb_true_iff, forallb_forall.
  intros [_ Hrect] Hin column' values Hin' ->.
  apply Hrect in Hin, Hin'. cbv beta in Hin, Hin'.
  apply Nat.eqb_eq in Hin. apply Nat.eqb_eq in Hin'.
  simpl in Hin, Hin'. congruence.
Qed.

Lemma calculate_changes_column (df : DataFrame) (y_axis : y_axis_mode)
    (column : string) (x : float) (l : list float) :
  frame_ok df = true -> get column (columns df) = Some (x :: l) ->
  exists changes,
    calculate_changes df y_axis = Ok changes
    /\ keys changes = keys (columns df)
    /\ get column changes = Some (change_between y_axis x (last l x)).
Proof.
  intros Hok Hget. apply get_In in Hget.
  destruct (changes_loop_total y_axis (columns df) [])
    as [changes Hrun]; [exact (frame_ok_columns _ _ _ _ Hok Hget)|].
  exists changes. split; [exact Hrun|].
  unfold frame_ok in Hok. apply andb_true_iff in Hok as [Hwf _].
  destruct (changes_loop_spec y_axis (columns df) [] changes Hwf Hrun)
    as (Hk & _ & Hcols).
  split; [exact Hk|].
  destruct (Hcols _ _ Hget) as (c & Hc & Hgc).
  rewrite column_change_cons in Hc. now injection Hc as <-.
Qed.

(** ** The change of one series, as a float *)

Lemma Prim2SF_hundred : exists m e, Prim2SF 100 = S754_finite false m e.
Proof. eexists. eexists. reflexivity. Qed.

Lemma eqb_zero_spec (x : float) :
  (x =? 0)%float = true <-> exists s, Prim2SF x = S754_zero s.
Proof.
  rewrite eqb_spec. change (Prim2SF 0) with (S754_zero false). unfold SFeqb.
  destruct (Prim2SF x) as [s|s| |s m e]; simpl; split;
    try discriminate; try (intros [? ?]; discriminate); eauto;
    destruct s; discriminate.
Qed.

Lemma is_infinity_spec (x : float) (s : bool) :
  Prim2SF x = S754_infinity s -> is_infinity x = true.
Proof.
  intros H. unfold is_infinity. rewrite eqb_spec, abs_spec, H. reflexivity.
Qed.

Lemma is_finite_spec (x : float) :
  is_finite x = true ->
  (exists s, Prim2SF x = S754_zero s)
  \/ (exists s m e, Prim2SF x = S754_finite s m e).
Proof.
  unfold is_finite. rewrite negb_true_iff. intros H.
  apply orb_false_elim in H as [Hnan Hinf].
  destruct (Prim2SF x) as [s|s| |s m e] eqn:E; eauto.
  - rewrite (is_infinity_spec x s E) in Hinf. discriminate.
  - apply is_nan_spec in E. congruence.
Qed.

Lemma not_finite_spec (x : float) :
  Prim2SF x = S754_nan \/ (exists s, Prim2SF x = S754_infinity s) ->
  is_finite x = false.
Proof.
  unfold is_finite. rewrite negb_false_iff. intros [H|[s H]].
  - apply is_nan_spec in H. now rewrite H.
  - rewrite (is_infinity_spec x s H). apply orb_true_r.
Qed.

(** A zero start price: the percentage is an infinity or NaN. *)
Lemma percent_of_zero_start (start_price end_price : float) :
  (start_price =? 0)%float = true ->
  is_finite (change_between Percentage_Change start_price end_price) = false.
Proof.
  intros H. apply eqb_zero_spec in H as [s Hs].
  apply not_finite_spec. unfold change_between.
  destruct Prim2SF_hundred as (m & e & Hc).
  rewrite mul_spec, div_spec, Hs, Hc.
  destruct (Prim2SF (end_price - start_price)) as [s'|s'| |s' m' e'];
    simpl; eauto.
Qed.

Lemma sub_self_spec (x : float) :
  is_finite x = true -> exists s, Prim2SF (x - x) = S754_zero s.
Proof.
  intros H. rewrite sub_spec.
  destruct (is_finite_spec x H) as [[s E]|(s & m & e & E)]; rewrite E.
  - destruct s; simpl; eauto.
  - unfold SF64sub, SFsub. rewrite Z.sub_diag. simpl. eauto.
Qed.

(** One point, finite price: the dollar change is zero. *)
Lemma dollar_of_single_point (x : float) :
  is_finite x = true -> (change_between Dollar_Value x x =? 0)%float = true.
Proof.
  intros H. apply eqb_zero_spec. now apply sub_self_spec.
Qed.

(** One point, finite price other than zero: the percentage is zero. *)
Lemma percent_of_single_point (x : float) :
  is_finite x = true -> (x =? 0)%float = false ->
  (change_between Percentage_Change x x =? 0)%float = true.
Proof.
  intros H Hnz. apply eqb_zero_spec. unfold change_between.
  destruct (sub_self_spec x H) as [s0 Hsub].
  destruct Prim2SF_hundred as (m & e & Hc).
  rewrite mul_spec, div_spec, Hsub, Hc.
  destruct (is_finite_spec x H) as [[s E]|(s & mx & ex & E)].
  - assert (Hz : (x =? 0)%float = true) by (apply eqb_zero_spec; eauto).
    congruence.
  - rewrite E. simpl. eauto.
Qed.

(** ** [get_timeframe_data] *)

Section Fetch.
Variable yf : history_source.
Variable period : option string.
Variables start_date end_date : option Z.
Variable interval : string.

Let w : window := window_of period start_date end_date.

Lemma fetch_close_cons (symbol : string) (rest : list string)
    (acc : dict Series) :
  fetch_close yf (symbol :: rest) period start_date end_date interval acc
  = (hist <- yf symbol w interval ;;
     fetch_close yf rest period start_date end_date interval
       (setitem symbol hist acc)).
Proof.
  subst w. simpl. destruct period as [[|c p]|]; reflexivity.
Qed.


Lemma fetch_close_ok (symbols : list string) :
  forall acc : dict Series,
  unique (keys acc ++ symbols)%list = true ->
  (forall symbol, In symbol symbols ->
     exists series, yf symbol w interval = Ok series) ->
  exists data,
    fetch_close yf symbols period start_date end_date interval acc
    = Ok (acc ++ data)%list
    /\ keys data = symbols
    /\ Forall (fun kv => yf (fst kv) w interval = Ok (snd kv)) data.
Proof.
  induction symbols as [|symbol rest IH]; intros acc Hu Hall.
  - exists []. simpl. now rewrite app_nil_r.
  - rewrite fetch_close_cons.
    destruct (Hall symbol (or_introl eq_refl)) as [series E].
    rewrite E. simpl.
    apply unique_app_cons in Hu as [Hnew Hu].
    rewrite (setitem_new _ _ _ Hnew).
    destruct (IH (acc ++ [(symbol, series)])%list) as (data & Hrun & Hk & Hd).
    { unfold keys. now rewrite map_app. }
    { intros s' Hs'. apply Hall. now right. }
    exists ((symbol, series) :: data). split; [|split].
    + rewrite Hrun, <- app_assoc. reflexivity.
    + simpl. now rewrite Hk.
    + now constructor.
Qed.
End Fetch.

(** ** The frame of a dict of series *)








Lemma keys_columns (data : dict Series) :
  keys (columns (DataFrame_of_dict data)) = keys data.
Proof.
  unfold DataFrame_of_dict, keys. simpl. rewrite map_map. reflexivity.
Qed.

Lemma frame_of_dict_ok (data : dict Series) :
  wf data = true -> frame_ok (DataFrame_of_dict data) = true.
Proof.
  intros H. unfold frame_ok, wf. rewrite keys_columns. fold (wf data).
  rewrite H. simpl. apply forallb_forall. intros [k col] Hin.
  apply in_map_iff in Hin as ([k' s] & [= <- <-] & _). simpl.
  unfold reindex. rewrite length_map. apply Nat.eqb_refl.
Qed.





(** * The flat file: what is read back *)

(** C10, as stated, fails: a display name that ends in a space has no comma
    and no newline, and is read back without the space. *)
Lemma save_load_padded_counterexample :
  wf padded_stocks = true
  /\ forallb (fun kv => plain (fst kv) && plain (snd kv)) padded_stocks = true
  /\ load_tracked_stocks (snd (save_tracked_stocks padded_stocks no_disk))
     = Ok [("AAPL", "Apple Inc.")]
  /\ load_tracked_stocks (snd (save_tracked_stocks padded_stocks no_disk))
     <> Ok padded_stocks.
Proof. repeat split; try reflexivity. discriminate. Qed.

(** C10, amended: for a mapping whose symbols and names hold no comma, line
    feed or carriage return, whose symbols do not start with whitespace and
    whose names do not end with whitespace, [save_tracked_stocks] succeeds on
    a writable file and [load_tracked_stocks] then returns the same mapping,
    entries in the same order. *)
Theorem save_then_load (stocks : dict string) (fs : file_store) :
  wf stocks = true -> clean stocks = true ->
  readable fs = true -> writable fs = true ->
  fst (save_tracked_stocks stocks fs) = Ok tt
  /\ load_tracked_stocks (snd (save_tracked_stocks stocks fs)) = Ok stocks.
Proof.
  intros Hwf Hc Hr Hw. unfold save_tracked_stocks. rewrite Hw. simpl.
  split; [reflexivity|].
  unfold load_tracked_stocks. simpl. rewrite Hr. now apply load_dump.
Qed.

Lemma save_then_load_witness :
  wf two_stocks = true /\ clean two_stocks = true
  /\ readable no_disk = true /\ writable no_disk = true
  /\ fst (save_tracked_stocks two_stocks no_disk) = Ok tt
  /\ load_tracked_stocks (snd (save_tracked_stocks two_stocks no_disk))
     = Ok two_stocks.
Proof.
  repeat (split; [reflexivity|]).
  apply (save_then_load two_stocks no_disk); reflexivity.
Defined.

(** C3, as stated, fails: the file the application writes for a display
    name with a comma is not what loading and persisting it again gives,
    not even up to the order of the lines. *)
Lemma persist_load_comma_counterexample :
  load_tracked_stocks (plain_disk (dump amzn_stocks))
  = Ok [("AMZN", "Amazon.com")]
  /\ contents
       (snd (save_tracked_stocks [("AMZN", "Amazon.com")]
               (plain_disk (dump amzn_stocks))))
     = Some ("AMZN,Amazon.com" ++ NL)
  /\ ~ Permutation (readlines (dump amzn_stocks))
         (readlines ("AMZN,Amazon.com" ++ NL)).
Proof.
  repeat split; try reflexivity.
  intros P. apply Permutation_length_1_inv in P. discriminate.
Qed.

(** C3, amended: for a file written from a mapping whose symbols and names
    hold no comma, line feed or carriage return, whose symbols do not start
    and whose names do not end with whitespace, loading it and persisting
    the result leaves the stored text unchanged, byte for byte and in the
    same order. *)
Theorem persist_of_load (stocks : dict string) (fs : file_store) :
  wf stocks = true -> clean stocks = true ->
  contents fs = Some (dump stocks) ->
  readable fs = true -> writable fs = true ->
  exists loaded,
    load_tracked_stocks fs = Ok loaded
    /\ fst (save_tracked_stocks loaded fs) = Ok tt
    /\ contents (snd (save_tracked_stocks loaded fs)) = contents fs.
Proof.
  intros Hwf Hc Hfile Hr Hw. exists stocks.
  unfold load_tracked_stocks, save_tracked_stocks.
  rewrite Hfile, Hr, Hw. simpl. now rewrite load_dump.
Qed.

Lemma persist_of_load_witness :
  wf two_stocks = true /\ clean two_stocks = true
  /\ contents (plain_disk (dump two_stocks)) = Some (dump two_stocks)
  /\ exists loaded,
       load_tracked_stocks (plain_disk (dump two_stocks)) = Ok loaded
       /\ fst (save_tracked_stocks loaded (plain_disk (dump two_stocks))) = Ok tt
       /\ contents (snd (save_tracked_stocks loaded (plain_disk (dump two_stocks))))
          = contents (plain_disk (dump two_stocks)).
Proof.
  repeat (split; [reflexivity|]).
  apply (persist_of_load two_stocks (plain_disk (dump two_stocks)));
    reflexivity.
Defined.

(** C4, as stated, fails: a line without a comma makes [load_tracked_stocks]
    raise; it does not fall back to the empty mapping. *)
Lemma load_corrupt_counterexample :
  load_tracked_stocks corrupt_disk = Raise IndexError
  /\ load_tracked_stocks corrupt_disk <> Ok [].
Proof. split; [reflexivity|discriminate]. Qed.

(** C4, amended: [load_tracked_stocks] returns the empty mapping when the
    file does not exist; when the file exists and cannot be opened it raises,
    and when a line has no comma after stripping it raises [IndexError];
    nothing is logged and nothing falls back to the empty mapping. *)
Theorem load_missing_or_corrupt (fs : file_store) :
  (contents fs = None -> load_tracked_stocks fs = Ok [])
  /\ (contents fs <> None -> readable fs = false ->
      load_tracked_stocks fs = Raise PermissionError)
  /\ (forall text line,
        contents fs = Some text -> readable fs = true ->
        In line (readlines text) -> has_char COMMA (strip line) = false ->
        load_tracked_stocks fs = Raise IndexError).
Proof.
  unfold load_tracked_stocks. repeat split.
  - now intros ->.
  - intros Hex Hr. destruct (contents fs); [now rewrite Hr|contradiction].
  - intros text line -> -> Hin Hbad. apply load_lines_corrupt. eauto.
Qed.

Lemma load_missing_or_corrupt_witness :
  load_tracked_stocks no_disk = Ok []
  /\ load_tracked_stocks (FileStore (Some (dump two_stocks)) false true)
     = Raise PermissionError
  /\ load_tracked_stocks corrupt_disk = Raise IndexError.
Proof.
  split; [|split].
  - apply (load_missing_or_corrupt no_disk). reflexivity.
  - apply (load_missing_or_corrupt (FileStore (Some (dump two_stocks)) false true));
      [discriminate|reflexivity].
  - apply (proj2 (proj2 (load_missing_or_corrupt corrupt_disk))
             ("AAPL" ++ NL) ("AAPL" ++ NL));
      try reflexivity. now left.
Defined.

(** [main] computes the changes of the tracked symbols as one batch. *)
Lemma main_changes_batch (yf : history_source) (stocks : dict string)
    (period : string) (start_date end_date : option Z) (y_axis : y_axis_mode) :
  main_changes yf stocks period start_date end_date y_axis
  = if String.eqb period "Custom Date Range"
    then changes_of_batch yf (keys stocks) None start_date end_date
           (if String.eqb period "1d" then "1m" else "1d") y_axis
    else changes_of_batch yf (keys stocks) (Some period) None None
           (if String.eqb period "1d" then "1m" else "1d") y_axis.
Proof.
  unfold main_changes, changes_of_batch.
  now destruct (String.eqb period "Custom Date Range").
Qed.

(** * The change metric *)

(** C5: for a column with at least one row, [calculate_changes] gives, in
    dollar mode, the last price minus the first and, in percentage mode,
    that difference divided by the first price, times 100; when the first
    price equals zero the percentage is not a finite number (an infinity or
    NaN: numpy floats do not raise). *)
Theorem change_is_last_against_first (df : DataFrame) (y_axis : y_axis_mode)
    (column : string) (start_price : float) (rest : list float) :
  frame_ok df = true ->
  get column (columns df) = Some (start_price :: rest) ->
  exists changes,
    calculate_changes df y_axis = Ok changes
    /\ get column changes
       = Some (match y_axis with
               | Dollar_Value => last rest start_price - start_price
               | Percentage_Change =>
                   ((last rest start_price - start_price) / start_price) * 100
               end)%float
    /\ ((start_price =? 0)%float = true ->
        is_finite
          (((last rest start_price - start_price) / start_price) * 100)%float
        = false).
Proof.
  intros Hok Hget.
  destruct (calculate_changes_column df y_axis column start_price rest Hok Hget)
    as (changes & Hrun & _ & Hc).
  exists changes. split; [exact Hrun|]. split.
  - rewrite Hc. now destruct y_axis.
  - apply (percent_of_zero_start start_price (last rest start_price)).
Qed.

Lemma change_is_last_against_first_witness :
  frame_ok pair_frame = true
  /\ get "B" (columns pair_frame) = Some [10; 15]%float
  /\ exists changes,
       calculate_changes pair_frame Percentage_Change = Ok changes
       /\ get "B" changes = Some (((15 - 10) / 10) * 100)%float
       /\ ((10 =? 0)%float = true ->
           is_finite (((15 - 10) / 10) * 100)%float = false).
Proof.
  repeat (split; [reflexivity|]).
  apply (change_is_last_against_first pair_frame Percentage_Change "B"
           10%float [15%float]); reflexivity.
Defined.

(** C7, as stated, fails: a single point with price zero has, in percentage
    mode, the change NaN, which is not zero. *)
Lemma single_point_zero_counterexample :
  frame_ok zero_frame = true
  /\ calculate_changes zero_frame Percentage_Change = Ok [("A", nan)]
  /\ (nan =? 0)%float = false.
Proof. repeat split; vm_compute; reflexivity. Qed.

(** C7, amended: for a column of one row whose price is a finite number,
    and in percentage mode is not zero, [calculate_changes] succeeds and the
    change of that column equals zero. *)
Theorem single_point_change (df : DataFrame) (y_axis : y_axis_mode)
    (column : string) (price : float) :
  frame_ok df = true ->
  get column (columns df) = Some [price] ->
  is_finite price = true ->
  (y_axis = Percentage_Change -> (price =? 0)%float = false) ->
  exists changes c,
    calculate_changes df y_axis = Ok changes
    /\ get column changes = Some c
    /\ (c =? 0)%float = true.
Proof.
  intros Hok Hget Hfin Hnz.
  destruct (calculate_changes_column df y_axis column price [] Hok Hget)
    as (changes & Hrun & _ & Hc).
  exists changes, (change_between y_axis price price).
  split; [exact Hrun|]. split; [exact Hc|].
  destruct y_axis.
  - now apply dollar_of_single_point.
  - apply percent_of_single_point; auto.
Qed.

Lemma single_point_change_witness :
  frame_ok single_frame = true
  /\ get "A" (columns single_frame) = Some [42%float]
  /\ is_finite 42 = true
  /\ (42 =? 0)%float = false
  /\ exists changes c,
       calculate_changes single_frame Percentage_Change = Ok changes
       /\ get "A" changes = Some c
       /\ (c =? 0)%float = true.
Proof.
  repeat (split; [reflexivity|]).
  apply (single_point_change single_frame Percentage_Change "A" 42%float);
    reflexivity.
Defined.

(** * Top gainers and top losers *)

Lemma In_firstn (n : nat) (l : list string) (x : string) :
  In x (firstn n l) -> In x l.
Proof.
  intros H. rewrite <- (firstn_skipn n l). apply in_or_app. now left.
Qed.

Lemma changes_get_column (df : DataFrame) (y_axis : y_axis_mode)
    (changes : dict float) :
  frame_ok df = true -> calculate_changes df y_axis = Ok changes ->
  keys changes = keys (columns df)
  /\ forall column values, In (column, values) (columns df) ->
       column_change y_axis values = Ok (changes_get changes column).
Proof.
  unfold frame_ok. rewrite andb_true_iff. intros [Hwf _] Hrun.
  destruct (changes_loop_spec y_axis (columns df) [] changes Hwf Hrun)
    as (Hk & _ & Hcols).
  split; [exact Hk|]. intros column values Hin.
  destruct (Hcols column values Hin) as (c & Hc & Hget).
  unfold changes_get. now rewrite Hget.
Qed.

(** C1, as stated, fails: in dollar mode the ranking goes by the dollar
    change, and A (+10 dollars, +10%) comes before B (+5 dollars, +50%),
    which is not descending by percentage change. *)
Lemma top_gainers_dollar_counterexample :
  calculate_changes pair_frame Dollar_Value
  = Ok [("A", 10%float); ("B", 5%float)]
  /\ calculate_changes pair_frame Percentage_Change
     = Ok [("A", 10%float); ("B", 50%float)]
  /\ top_gainers [("A", 10%float); ("B", 5%float)] = ["A"; "B"]
  /\ ~ descending (changes_get [("A", 10%float); ("B", 50%float)]) ["A"; "B"].
Proof.
  repeat split; try (vm_compute; reflexivity).
  intros H. inversion_clear H as [|? ? _ Hall].
  inversion_clear Hall as [|? ? Hb _]. vm_compute in Hb. discriminate.
Qed.

(** C1, amended: when no change is NaN, the top gainers are the first 10
    symbols of the columns sorted descending by the change of the active
    mode (the dollar change in dollar mode, the percentage in percentage
    mode), symbols with equal change in column order; the top losers are
    the same with ascending order; every returned symbol is a column of the
    frame. *)
Theorem top_ranking_by_active_change (df : DataFrame) (y_axis : y_axis_mode)
    (changes : dict float) :
  frame_ok df = true ->
  calculate_changes df y_axis = Ok changes ->
  comparable (changes_get changes) (keys changes) = true ->
  (forall column values, In (column, values) (columns df) ->
     column_change y_axis values = Ok (changes_get changes column))
  /\ exists gainers losers,
       top_gainers changes = firstn 10 gainers
       /\ top_losers changes = firstn 10 losers
       /\ Permutation gainers (keys (columns df))
       /\ Permutation losers (keys (columns df))
       /\ descending (changes_get changes) gainers
       /\ ascending (changes_get changes) losers
       /\ (forall c, tied (changes_get changes) c gainers
                    = tied (changes_get changes) c (keys (columns df)))
       /\ (forall c, tied (changes_get changes) c losers
                    = tied (changes_get changes) c (keys (columns df)))
       /\ (forall symbol,
             In symbol (top_gainers changes) \/ In symbol (top_losers changes) ->
             In symbol (keys (columns df))).
Proof.
  intros Hok Hrun Hcmp.
  destruct (changes_get_column df y_axis changes Hok Hrun) as [Hk Hcols].
  split; [exact Hcols|].
  exists (sorted_reverse (changes_get changes) (keys changes)),
         (sorted (changes_get changes) (keys changes)).
  rewrite <- Hk.
  split; [reflexivity|]. split; [reflexivity|].
  split; [apply sorted_reverse_perm|]. split; [apply sorted_perm|].
  split; [now apply sorted_reverse_descending|].
  split; [now apply sorted_ascending|].
  split; [intros c; now apply sorted_reverse_tied|].
  split; [intros c; now apply sorted_tied|].
  intros symbol [H|H]; apply In_firstn in H.
  - now apply (Permutation_in _ (sorted_reverse_perm _ _ _)) in H.
  - now apply (Permutation_in _ (sorted_perm _ _ _)) in H.
Qed.

Lemma top_ranking_by_active_change_witness :
  frame_ok pair_frame = true
  /\ calculate_changes pair_frame Dollar_Value
     = Ok [("A", 10%float); ("B", 5%float)]
  /\ comparable (changes_get [("A", 10%float); ("B", 5%float)]) ["A"; "B"]
     = true
  /\ exists gainers losers,
       top_gainers [("A", 10%float); ("B", 5%float)] = firstn 10 gainers
       /\ top_losers [("A", 10%float); ("B", 5%float)] = firstn 10 losers
       /\ Permutation gainers ["A"; "B"] /\ Permutation losers ["A"; "B"].
Proof.
  repeat (split; [vm_compute; reflexivity|]).
  destruct (top_ranking_by_active_change pair_frame Dollar_Value
              [("A", 10%float); ("B", 5%float)])
    as (_ & gainers & losers & Hg & Hl & Pg & Pl & _);
    try (vm_compute; reflexivity).
  exists gainers, losers. repeat split; assumption.
Defined.

(** * A batch with a bad symbol *)




(** * Manual selection *)

Lemma select_by_change_filter (test : float -> bool) (changes : dict float)
    (selected : list string) :
  (forall stock, In stock selected -> contains stock changes = true) ->
  select_by_change test changes selected
  = Ok (filter (fun stock => test (changes_get changes stock)) selected).
Proof.
  induction selected as [|stock rest IH]; intros Hin; [reflexivity|].
  simpl. unfold subscript, changes_get.
  pose proof (Hin stock (or_introl eq_refl)) as Hs. unfold contains in Hs.
  destruct (get stock changes) as [c|]; [|discriminate]. simpl.
  rewrite IH by (intros s Hs'; apply Hin; now right). reflexivity.
Qed.

(** When no change is NaN the two lists split the selection: a stock goes
    to the gainers when its change is above zero and to the losers
    otherwise, and each list keeps the order of the selection. *)
Lemma manual_selection_splits (selected : list string) (changes : dict float) :
  (forall stock, In stock selected -> contains stock changes = true) ->
  comparable (changes_get changes) selected = true ->
  manual_selection selected changes
  = Ok (filter (fun stock => (0 <? changes_get changes stock)%float) selected,
        filter (fun stock => negb (0 <? changes_get changes stock)%float)
          selected).
Proof.
  intros Hin Hcmp. unfold manual_selection.
  rewrite !select_by_change_filter by assumption. simpl. do 2 f_equal.
  apply filter_ext_in. intros stock Hs.
  rewrite (float_ltb_leb 0 (changes_get changes stock) eq_refl
             (comparable_in _ _ _ _ Hcmp Hs)).
  now rewrite negb_involutive.
Qed.

(** C6 at a failing input: XOM has no rows, its change is NaN, and the
    manual selection of both stocks puts XOM in neither list. *)
Theorem manual_selection_drops_nan :
  changes_of_batch sparse_source ["AAPL"; "XOM"] (Some "5d") None None "1d"
    Percentage_Change = Ok [("AAPL", 10%float); ("XOM", nan)]
  /\ manual_selection ["AAPL"; "XOM"] [("AAPL", 10%float); ("XOM", nan)]
     = Ok (["AAPL"], []).
Proof. split; vm_compute; reflexivity. Qed.

(** * Removing a stock, with confirmation *)

Lemma existsb_keys_filter {V : Type} (f : string * V -> bool) (k : string)
    (d : dict V) :
  existsb (String.eqb k) (keys d) = false ->
  existsb (String.eqb k) (keys (filter f d)) = false.
Proof.
  induction d as [|kv d IH]; simpl; [reflexivity|].
  intros H. apply orb_false_elim in H as [Hk Hd].
  destruct (f kv); simpl; [rewrite Hk|]; auto.
Qed.

Lemma wf_filter {V : Type} (f : string * V -> bool) (d : dict V) :
  wf d = true -> wf (filter f d) = true.
Proof.
  unfold wf. induction d as [|kv d IH]; simpl; [reflexivity|].
  rewrite andb_true_iff, negb_true_iff. intros [Hk Hd].
  destruct (f kv); simpl; [|auto].
  rewrite (existsb_keys_filter f _ d Hk). simpl. auto.
Qed.


Lemma delitem_absent {V : Type} (k : string) (d d' : dict V) :
  delitem k d = Ok d' -> get k d' = None /\ ~ In k (keys d').
Proof.
  unfold delitem. destruct (contains k d); [|discriminate].
  intros [= <-]. split.
  - induction d as [|[k' v] d IH]; simpl; [reflexivity|].
    destruct (String.eqb k k') eqn:E; simpl; [assumption|].
    now rewrite E.
  - intros Hin. apply in_map_iff in Hin as ([k' v] & Hk & Hf).
    simpl in Hk. subst k'. apply filter_In in Hf as [_ Hf].
    simpl in Hf. now rewrite String.eqb_refl in Hf.
Qed.



(** Cancelling leaves the mapping and the file as they were. *)
Lemma cancelled_removal (w : world) (symbol : string) :
  session (cancel_remove (request_removal symbol w))
  = Session (tech_stocks (session w)) (Some symbol) false
  /\ disk (cancel_remove (request_removal symbol w)) = disk w.
Proof. split; reflexivity. Qed.

(** * Adding a stock *)


(** The metadata lookup raises: a message, nothing else changes. *)
Lemma add_stock_lookup_fails (yf_info : info_source) (new_stock : string)
    (w : world) (e : exn) :
  new_stock <> "" ->
  contains (upper new_stock) (tech_stocks (session w)) = false ->
  yf_info (upper new_stock) = Raise e ->
  add_stock yf_info new_stock w = write (Failed_to_add e) w.
Proof.
  intros Hne Hnew Hinfo. unfold add_stock. rewrite Hnew, Hinfo.
  destruct new_stock; [contradiction|reflexivity].
Qed.


(** C9 at a failing input: the file cannot be written. The message says the
    stock was not added, the file is as before, and the session tracks the
    stock all the same. *)
Theorem add_stock_unwritable_file :
  page (add_stock apple_info "aapl" read_only_world)
  = [Failed_to_add PermissionError]
  /\ disk (add_stock apple_info "aapl" read_only_world)
     = disk read_only_world
  /\ tech_stocks (session read_only_world) = []
  /\ tech_stocks (session (add_stock apple_info "aapl" read_only_world))
     = [("AAPL", "Apple Inc.")].
Proof. repeat split. Qed.

(** * More on the flat file *)

Lemma existsb_keys_setitem {V : Type} (a k : string) (v : V) (d : dict V) :
  existsb (String.eqb a) (keys (setitem k v d))
  = existsb (String.eqb a) (keys d) || String.eqb a k.
Proof.
  induction d as [|[k' v'] d IH]; simpl.
  - now rewrite orb_false_r.
  - destruct (String.eqb_spec k k') as [->|_]; simpl.
    + now destruct (String.eqb a k'), (existsb (String.eqb a) (keys d)).
    + rewrite IH. now rewrite orb_assoc.
Qed.

Lemma wf_setitem {V : Type} (k : string) (v : V) (d : dict V) :
  wf d = true -> wf (setitem k v d) = true.
Proof.
  unfold wf. induction d as [|[k' v'] d IH]; simpl; [reflexivity|].
  rewrite andb_true_iff, negb_true_iff. intros [Hk Hd].
  destruct (String.eqb_spec k k') as [->|Hne]; simpl.
  - now rewrite Hk, Hd.
  - rewrite existsb_keys_setitem, Hk, (IH Hd). simpl.
    destruct (String.eqb_spec k' k); [congruence|reflexivity].
Qed.

Lemma load_step_unique (lines : list string) :
  forall d stocks : dict string,
  wf d = true -> fold_left load_step lines (Ok d) = Ok stocks ->
  wf stocks = true.
Proof.
  induction lines as [|line lines IH]; intros d stocks Hd Hrun; simpl in Hrun.
  - now injection Hrun as <-.
  - destruct (load_entry line) as [kv|e]; simpl in Hrun.
    + apply (IH _ _ (wf_setitem (fst kv) (snd kv) d Hd) Hrun).
    + now rewrite load_step_raise in Hrun.
Qed.

(** Whatever the file holds, a mapping that [load_tracked_stocks] returns
    has no symbol twice. *)
Theorem load_gives_unique_symbols (fs : file_store) (stocks : dict string) :
  load_tracked_stocks fs = Ok stocks -> wf stocks = true.
Proof.
  unfold load_tracked_stocks. destruct (contents fs) as [text|].
  - destruct (readable fs); [|discriminate].
    now apply load_step_unique.
  - now intros [= <-].
Qed.

Lemma split_with_sep (c : ascii) (s : string) :
  has_char c s = true -> exists a b rest, split c s = a :: b :: rest.
Proof.
  induction s as [|x s IH]; simpl; [discriminate|].
  destruct (Ascii.eqb x c); simpl.
  - intros _. destruct s as [|y s]; simpl; [eauto|].
    destruct (Ascii.eqb y c); [eauto|].
    destruct (split c s); eauto.
  - intros H. destruct (IH H) as (a & b & rest & ->). eauto.
Qed.

Lemma load_lines_all_commas (lines : list string) :
  forall d : dict string,
  forallb (fun line => has_char COMMA (strip line)) lines = true ->
  exists stocks, fold_left load_step lines (Ok d) = Ok stocks.
Proof.
  induction lines as [|line lines IH]; intros d H; simpl; [eauto|].
  simpl in H. apply andb_true_iff in H as [Hl Hrest].
  unfold load_entry.
  destruct (split_with_sep _ _ Hl) as (a & b & rest & ->). simpl.
  now apply IH.
Qed.

(** An existing, readable file loads exactly when every line, once
    stripped, holds a comma; otherwise the load raises [IndexError]. *)
Theorem load_needs_a_comma_per_line (fs : file_store) (text : string) :
  contents fs = Some text -> readable fs = true ->
  if forallb (fun line => has_char COMMA (strip line)) (readlines text)
  then exists stocks, load_tracked_stocks fs = Ok stocks
  else load_tracked_stocks fs = Raise IndexError.
Proof.
  intros Hc Hr. unfold load_tracked_stocks. rewrite Hc, Hr.
  destruct (forallb _ (readlines text)) eqn:E.
  - now apply load_lines_all_commas.
  - apply load_lines_corrupt.
    assert (Hex : existsb (fun line => negb (has_char COMMA (strip line)))
                    (readlines text) = true).
    { clear -E. induction (readlines text) as [|l ls IH]; simpl in *;
        [discriminate|].
      destruct (has_char COMMA (strip l)); simpl in *; auto. }
    apply existsb_exists in Hex as (line & Hin & Hbad).
    exists line. split; [assumption|]. now apply negb_true_iff.
Qed.

Lemma rstrip_comma (s : string) :
  rstrip (String COMMA s) = String COMMA (rstrip s).
Proof. simpl. now destruct (rstrip s). Qed.

Lemma rstrip_line_end (s : string) : rstrip (s ++ NL) = rstrip s.
Proof. now apply rstrip_spaces_after. Qed.

(** A display name with a comma is read back cut at its first comma: the
    part from the comma on is lost. *)
Theorem load_cuts_name_at_comma (fs : file_store)
    (symbol head tail : string) :
  readable fs = true -> writable fs = true ->
  plain symbol = true -> no_leading_space symbol = true ->
  plain head = true ->
  has_char LF tail = false -> has_char CR tail = false ->
  load_tracked_stocks
    (snd (save_tracked_stocks [(symbol, head ++ String COMMA tail)] fs))
  = Ok [(symbol, head)].
Proof.
  intros Hr Hw Hs Hlead Hh Ht1 Ht2.
  unfold plain in Hs, Hh. rewrite !andb_true_iff, !negb_true_iff in Hs, Hh.
  destruct Hs as [[Hs1 Hs2] Hs3], Hh as [[Hh1 Hh2] Hh3].
  unfold save_tracked_stocks, load_tracked_stocks. rewrite Hw. simpl.
  rewrite Hr. unfold dump. simpl.
  change (entry_line (symbol, head ++ String COMMA tail))
    with (symbol ++ String COMMA ((head ++ String COMMA tail) ++ NL)).
  replace (symbol ++ String COMMA ((head ++ String COMMA tail) ++ NL))
    with ((symbol ++ String COMMA (head ++ String COMMA tail)) ++ String LF "")
    by (unfold NL; rewrite !append_assoc; simpl; now rewrite !append_assoc).
  rewrite readlines_line.
  2:{ rewrite has_char_append. simpl. rewrite has_char_append. simpl.
      now rewrite Hs2, Hh2, Ht1. }
  2:{ rewrite has_char_append. simpl. rewrite has_char_append. simpl.
      now rewrite Hs3, Hh3, Ht2. }
  simpl readlines. unfold load_lines. simpl fold_left. unfold load_entry.
  assert (Hstrip : strip ((symbol ++ String COMMA (head ++ String COMMA tail)) ++ NL)
                   = symbol ++ String COMMA (head ++ String COMMA (rstrip tail))).
  { unfold strip. rewrite rstrip_line_end.
    rewrite rstrip_before by (rewrite rstrip_comma; discriminate).
    rewrite rstrip_comma.
    rewrite rstrip_before by (rewrite rstrip_comma; discriminate).
    rewrite rstrip_comma.
    destruct symbol as [|c symbol]; [reflexivity|].
    simpl in *. now destruct (isspace c). }
  rewrite Hstrip, (split_at_first _ _ _ Hs1), (split_at_first _ _ _ Hh1).
  reflexivity.
Qed.

Lemma dump_app (stocks more : dict string) :
  dump (stocks ++ more)%list = dump stocks ++ dump more.
Proof.
  induction stocks as [|kv stocks IH]; [reflexivity|].
  change ((kv :: stocks) ++ more)%list with (kv :: (stocks ++ more))%list.
  now rewrite !dump_cons, IH, append_assoc.
Qed.

(** A line [symbol,name] added at the end of the file sets that symbol on
    loading: a symbol already in the file keeps its place and takes the new
    name, a new symbol goes last. *)
Theorem load_with_line_added (stocks : dict string) (symbol name : string) :
  wf stocks = true -> clean stocks = true ->
  clean_entry (symbol, name) = true ->
  load_tracked_stocks (plain_disk (dump stocks ++ entry_line (symbol, name)))
  = Ok (setitem symbol name stocks).
Proof.
  intros Hwf Hc Hkv. unfold load_tracked_stocks, plain_disk. simpl.
  replace (dump stocks ++ entry_line (symbol, name))
    with (dump (stocks ++ [(symbol, name)])%list)
    by (rewrite dump_app; unfold dump; reflexivity).
  rewrite readlines_dump.
  2:{ unfold clean. rewrite forallb_app. simpl. fold (clean stocks).
      now rewrite Hc, Hkv. }
  unfold load_lines. rewrite map_app, fold_left_app.
  set (loaded := fold_left load_step (map entry_line stocks) (Ok [])).
  assert (Hl : loaded = Ok stocks) by apply (load_lines_from [] stocks Hc Hwf).
  rewrite Hl. simpl. unfold load_step. simpl.
  now rewrite (load_entry_clean _ Hkv).
Qed.

Lemma load_gives_unique_symbols_witness :
  load_tracked_stocks
    (plain_disk (dump two_stocks ++ entry_line ("AAPL", "Apple")))
  = Ok [("AAPL", "Apple"); ("XOM", "Exxon Mobil")]
  /\ wf [("AAPL", "Apple"); ("XOM", "Exxon Mobil")] = true.
Proof.
  split; [reflexivity|].
  apply (load_gives_unique_symbols
           (plain_disk (dump two_stocks ++ entry_line ("AAPL", "Apple")))).
  reflexivity.
Defined.

Lemma load_needs_a_comma_per_line_witness :
  contents comma_less_disk = Some ("AAPL,Apple Inc." ++ NL ++ "XOM" ++ NL)
  /\ readable comma_less_disk = true
  /\ load_tracked_stocks comma_less_disk = Raise IndexError.
Proof.
  repeat (split; [reflexivity|]).
  apply (load_needs_a_comma_per_line comma_less_disk
           ("AAPL,Apple Inc." ++ NL ++ "XOM" ++ NL)); reflexivity.
Defined.

Lemma load_cuts_name_at_comma_witness :
  readable no_disk = true /\ writable no_disk = true
  /\ plain "AMZN" = true /\ no_leading_space "AMZN" = true
  /\ plain "Amazon.com" = true
  /\ has_char LF " Inc." = false /\ has_char CR " Inc." = false
  /\ load_tracked_stocks (snd (save_tracked_stocks amzn_stocks no_disk))
     = Ok [("AMZN", "Amazon.com")].
Proof.
  repeat (split; [reflexivity|]).
  apply (load_cuts_name_at_comma no_disk "AMZN" "Amazon.com" " Inc.");
    reflexivity.
Defined.

Lemma load_with_line_added_witness :
  wf two_stocks = true /\ clean two_stocks = true
  /\ clean_entry ("AAPL", "Apple") = true
  /\ load_tracked_stocks
       (plain_disk (dump two_stocks ++ entry_line ("AAPL", "Apple")))
     = Ok [("AAPL", "Apple"); ("XOM", "Exxon Mobil")].
Proof.
  repeat (split; [reflexivity|]).
  apply (load_with_line_added two_stocks "AAPL" "Apple"); reflexivity.
Defined.

(** * The rows of the frame *)

Lemma ascending_labels_cons (t u : Z) (idx : list Z) :
  ascending_labels (t :: u :: idx)
  = (t <? u)%Z && ascending_labels (u :: idx).
Proof. reflexivity. Qed.

Lemma ascending_labels_tail (t : Z) (idx : list Z) :
  ascending_labels (t :: idx) = true -> ascending_labels idx = true.
Proof.
  destruct idx as [|u idx]; [reflexivity|].
  rewrite ascending_labels_cons, andb_true_iff. tauto.
Qed.

Lemma ascending_labels_above (t : Z) (idx : list Z) :
  ascending_labels (t :: idx) = true -> forall u, In u idx -> (t < u)%Z.
Proof.
  revert t. induction idx as [|v idx IH]; intros t H u Hin; [contradiction|].
  rewrite ascending_labels_cons, andb_true_iff, Z.ltb_lt in H.
  destruct H as [Htv Hrest]. destruct Hin as [->|Hin]; [assumption|].
  specialize (IH v Hrest u Hin). lia.
Qed.

Lemma ascending_labels_intro (t : Z) (idx : list Z) :
  ascending_labels idx = true -> (forall u, In u idx -> (t < u)%Z) ->
  ascending_labels (t :: idx) = true.
Proof.
  destruct idx as [|v idx]; [reflexivity|]. intros H Hall.
  rewrite ascending_labels_cons, H, andb_true_r. apply Z.ltb_lt.
  apply Hall. now left.
Qed.








(** ** Series that share their timestamps *)

Lemma ascending_labels_app (l1 l2 : list Z) :
  ascending_labels (l1 ++ l2) = true -> ascending_labels l1 = true.
Proof.
  induction l1 as [|t l1 IH]; [reflexivity|]. simpl app. intros H.
  apply ascending_labels_intro.
  - apply IH. now apply ascending_labels_tail in H.
  - intros u Hu. apply (ascending_labels_above t _ H). apply in_or_app. now left.
Qed.

Lemma insert_label_last (t : Z) (acc : list Z) :
  ascending_labels (acc ++ [t]) = true -> insert_label t acc = (acc ++ [t])%list.
Proof.
  induction acc as [|u acc IH]; [reflexivity|]. simpl app. intros H.
  assert (Hut : (u < t)%Z).
  { apply (ascending_labels_above u _ H). apply in_or_app. right. now left. }
  simpl. destruct (Z.ltb_spec t u); [lia|].
  destruct (Z.eqb_spec t u); [lia|].
  rewrite IH; [reflexivity|]. now apply ascending_labels_tail in H.
Qed.

Lemma insert_label_present (t : Z) (idx : list Z) :
  ascending_labels idx = true -> In t idx -> insert_label t idx = idx.
Proof.
  induction idx as [|u idx IH]; intros H Hin; [contradiction|].
  simpl. destruct Hin as [->|Hin].
  - now rewrite Z.ltb_irrefl, Z.eqb_refl.
  - pose proof (ascending_labels_above u idx H t Hin) as Hut.
    destruct (Z.ltb_spec t u); [lia|]. destruct (Z.eqb_spec t u); [lia|].
    rewrite IH; [reflexivity| |assumption]. now apply ascending_labels_tail in H.
Qed.

Lemma labels_fresh (s : Series) :
  forall acc : list Z,
  ascending_labels (acc ++ map fst s) = true ->
  fold_left (fun idx' p => insert_label (fst p) idx') s acc
  = (acc ++ map fst s)%list.
Proof.
  induction s as [|p s IH]; intros acc H; simpl.
  - now rewrite app_nil_r.
  - simpl in H.
    replace (acc ++ fst p :: map fst s)%list
      with ((acc ++ [fst p]) ++ map fst s)%list in *
      by (rewrite <- app_assoc; reflexivity).
    rewrite insert_label_last by (now apply ascending_labels_app in H).
    now apply IH.
Qed.

Lemma labels_present (s : Series) :
  forall idx : list Z,
  ascending_labels idx = true -> (forall p, In p s -> In (fst p) idx) ->
  fold_left (fun idx' p => insert_label (fst p) idx') s idx = idx.
Proof.
  induction s as [|p s IH]; intros idx H Hall; simpl; [reflexivity|].
  rewrite insert_label_present; auto.
  - apply IH; auto. intros q Hq. apply Hall. now right.
  - apply Hall. now left.
Qed.

Lemma union_index_common (data : dict Series) (idx : list Z) :
  data <> [] -> ascending_labels idx = true ->
  (forall k s, In (k, s) data -> map fst s = idx) ->
  union_index data = idx.
Proof.
  intros Hne Hasc Hall. unfold union_index.
  destruct data as [|[k s] data]; [contradiction|]. simpl.
  rewrite (labels_fresh s []) by (simpl; now rewrite (Hall k s (or_introl eq_refl))).
  simpl. rewrite (Hall k s (or_introl eq_refl)).
  assert (Hrest : forall k' s', In (k', s') data -> map fst s' = idx)
    by (intros k' s' H; apply (Hall k' s'); now right).
  clear Hall Hne. induction data as [|[k' s'] data IH]; simpl; [reflexivity|].
  rewrite labels_present; auto.
  - apply IH. intros k2 s2 H. apply (Hrest k2 s2). now right.
  - intros p Hp. rewrite <- (Hrest k' s' (or_introl eq_refl)).
    now apply in_map.
Qed.

Lemma reindex_own_labels (s : Series) :
  ascending_labels (map fst s) = true -> reindex (map fst s) s = map snd s.
Proof.
  unfold reindex. induction s as [|[t v] s IH]; intros H; [reflexivity|].
  simpl. rewrite Z.eqb_refl. f_equal.
  rewrite <- IH by (now apply ascending_labels_tail in H).
  apply map_ext_in. intros u Hu.
  pose proof (ascending_labels_above t _ H u Hu) as Htu.
  destruct (Z.eqb_spec u t); [lia|reflexivity].
Qed.

(** When all the series have the same, strictly ascending timestamps,
    the frame holds each series as it is: the rows are those timestamps and
    each column is the prices of its series. *)
Theorem frame_of_aligned_series (data : dict Series) (idx : list Z) :
  data <> [] -> ascending_labels idx = true ->
  (forall k s, In (k, s) data -> map fst s = idx) ->
  DataFrame_of_dict data
  = Frame idx (map (fun kv => (fst kv, map snd (snd kv))) data).
Proof.
  intros Hne Hasc Hall. unfold DataFrame_of_dict.
  rewrite (union_index_common data idx Hne Hasc Hall). f_equal.
  apply map_ext_in. intros [k s] Hin. simpl.
  rewrite <- (Hall k s Hin) in *. now rewrite reindex_own_labels.
Qed.

(** The changes of a batch whose series share their timestamps: every
    requested symbol gets the change between the first and the last price
    of its own series. *)
Theorem batch_changes_on_shared_timestamps (yf : history_source)
    (symbols : list string) (period : option string)
    (start_date end_date : option Z) (interval : string)
    (y_axis : y_axis_mode) (series_of : string -> Series) (idx : list Z) :
  unique symbols = true -> symbols <> [] ->
  idx <> [] -> ascending_labels idx = true ->
  (forall symbol, In symbol symbols ->
     yf symbol (window_of period start_date end_date) interval
     = Ok (series_of symbol)
     /\ map fst (series_of symbol) = idx) ->
  exists changes,
    changes_of_batch yf symbols period start_date end_date interval y_axis
    = Ok changes
    /\ keys changes = symbols
    /\ forall symbol, In symbol symbols ->
       exists c, get symbol changes = Some c
                 /\ column_change y_axis (map snd (series_of symbol)) = Ok c.
Proof.
  intros Hu Hne Hidx Hasc Hall.
  unfold changes_of_batch, get_timeframe_data.
  destruct (fetch_close_ok yf period start_date end_date interval symbols []
              Hu) as (data & Hrun & Hk & Hd).
  { intros symbol Hs. exists (series_of symbol). now apply Hall. }
  rewrite Hrun. simpl. rewrite Forall_forall in Hd.
  assert (Hdata : forall k s, In (k, s) data -> In k symbols /\ s = series_of k).
  { intros k s Hks. assert (Hin : In k symbols).
    { rewrite <- Hk. apply in_map_iff. now exists (k, s). }
    split; [assumption|]. pose proof (Hd _ Hks) as Hy. simpl in Hy.
    destruct (Hall k Hin) as [Hy' _]. rewrite Hy' in Hy. now injection Hy. }
  rewrite (frame_of_aligned_series data idx).
  2:{ intros ->. simpl in Hk. now symmetry in Hk. }
  2:{ exact Hasc. }
  2:{ intros k s Hks. destruct (Hdata k s Hks) as [Hin ->]. now apply Hall. }
  unfold calculate_changes. simpl columns.
  set (cols := map (fun kv : string * Series => (fst kv, map snd (snd kv))) data).
  assert (Hkeys : keys cols = symbols).
  { unfold cols, keys. rewrite map_map. exact Hk. }
  destruct (changes_loop_total y_axis cols []) as [changes Hc].
  { intros column values Hin ->. unfold cols in Hin.
    apply in_map_iff in Hin as ([k s] & [= _ Hnil] & Hks). simpl in Hnil.
    destruct (Hdata k s Hks) as [Hin ->].
    destruct (Hall k Hin) as [_ Hlabels].
    apply map_eq_nil in Hnil. rewrite Hnil in Hlabels. simpl in Hlabels.
    now symmetry in Hlabels. }
  exists changes. split; [exact Hc|].
  destruct (changes_loop_spec y_axis cols [] changes) as (Hck & _ & Hcols);
    [simpl; now rewrite Hkeys|exact Hc|].
  split; [simpl in Hck; congruence|].
  intros symbol Hs.
  destruct (Hcols symbol (map snd (series_of symbol))) as (c & Hcc & Hget).
  { unfold cols. apply in_map_iff. exists (symbol, series_of symbol).
    split; [reflexivity|]. rewrite <- Hk in Hs.
    apply in_map_iff in Hs as ([k s] & <- & Hks).
    destruct (Hdata k s Hks) as [_ ->]. exact Hks. }
  exists c. now split.
Qed.

Lemma batch_changes_on_shared_timestamps_witness :
  unique ["AAPL"; "XOM"] = true
  /\ ascending_labels [1; 2]%Z = true
  /\ exists changes,
       changes_of_batch paired_source ["AAPL"; "XOM"] (Some "5d") None None
         "1d" Percentage_Change = Ok changes
       /\ keys changes = ["AAPL"; "XOM"]
       /\ forall symbol, In symbol ["AAPL"; "XOM"] ->
          exists c, get symbol changes = Some c
                    /\ column_change Percentage_Change
                         (map snd (paired_series symbol)) = Ok c.
Proof.
  repeat (split; [reflexivity|]).
  apply (batch_changes_on_shared_timestamps paired_source ["AAPL"; "XOM"]
           (Some "5d") None None "1d" Percentage_Change paired_series
           [1; 2]%Z); try reflexivity; try discriminate.
  intros symbol [<-|[<-|[]]]; split; reflexivity.
Defined.

(** ** When [calculate_changes] raises *)

Lemma changes_loop_raises (y_axis : y_axis_mode) (cols : dict (list float))
    (e : exn) :
  forall acc : dict float,
  changes_loop y_axis cols acc = Raise e
  <-> e = IndexError /\ exists column, In (column, []) cols.
Proof.
  induction cols as [|[k vals] cols IH]; intros acc; simpl.
  - split; [discriminate|]. intros [_ [column []]].
  - destruct vals as [|x vals].
    + simpl. split.
      * intros [= <-]. split; [reflexivity|]. exists k. now left.
      * now intros [-> _].
    + rewrite column_change_cons. simpl. rewrite IH. split.
      * intros [He [column Hin]]. split; [assumption|]. exists column. now right.
      * intros [He [column [Hin|Hin]]]; [discriminate|].
        split; [assumption|]. now exists column.
Qed.

(** [calculate_changes] raises nothing but [IndexError], and raises it
    exactly when some column of the frame has no rows. *)
Theorem calculate_changes_raises (df : DataFrame) (y_axis : y_axis_mode)
    (e : exn) :
  calculate_changes df y_axis = Raise e
  <-> e = IndexError /\ exists column, In (column, []) (columns df).
Proof. apply changes_loop_raises. Qed.

Lemma calculate_changes_raises_witness :
  calculate_changes ragged_frame Dollar_Value = Raise IndexError.
Proof.
  apply (calculate_changes_raises ragged_frame Dollar_Value IndexError).
  split; [reflexivity|]. exists "B". right. now left.
Defined.

(** ** NaN prices *)

Lemma change_between_nan_price (y_axis : y_axis_mode)
    (start_price end_price : float) :
  is_nan start_price = true \/ is_nan end_price = true ->
  is_nan (change_between y_axis start_price end_price) = true.
Proof.
  intros H.
  assert (Hsub : Prim2SF (end_price - start_price) = S754_nan).
  { rewrite sub_spec. destruct H as [H|H]; apply is_nan_spec in H; rewrite H.
    - now destruct (Prim2SF end_price).
    - reflexivity. }
  apply is_nan_spec. destruct y_axis; simpl; [exact Hsub|].
  now rewrite mul_spec, div_spec, Hsub.
Qed.

(** A column whose first or last price is NaN has the change NaN, in both
    modes. *)
Theorem nan_price_gives_nan_change (df : DataFrame) (y_axis : y_axis_mode)
    (column : string) (start_price : float) (rest : list float) :
  frame_ok df = true ->
  get column (columns df) = Some (start_price :: rest) ->
  is_nan start_price = true \/ is_nan (last rest start_price) = true ->
  exists changes c,
    calculate_changes df y_axis = Ok changes
    /\ get column changes = Some c
    /\ is_nan c = true.
Proof.
  intros Hok Hget Hnan.
  destruct (calculate_changes_column df y_axis column start_price rest Hok Hget)
    as (changes & Hrun & _ & Hc).
  exists changes, (change_between y_axis start_price (last rest start_price)).
  repeat split; try assumption. now apply change_between_nan_price.
Qed.

Lemma nan_price_gives_nan_change_witness :
  frame_ok late_frame = true
  /\ get "B" (columns late_frame) = Some [nan; 15]%float
  /\ is_nan nan = true
  /\ exists changes c,
       calculate_changes late_frame Dollar_Value = Ok changes
       /\ get "B" changes = Some c
       /\ is_nan c = true.
Proof.
  repeat (split; [reflexivity|]).
  apply (nan_price_gives_nan_change late_frame Dollar_Value "B" nan [15%float]);
    try reflexivity. now left.
Defined.

(** * More on the rankings *)

Lemma unique_NoDup (l : list string) : unique l = true -> NoDup l.
Proof.
  induction l as [|k l IH]; simpl; [constructor|].
  rewrite andb_true_iff, negb_true_iff. intros [Hk Hl].
  constructor; [|auto]. intros Hin.
  assert (H : existsb (String.eqb k) l = true).
  { apply existsb_exists. exists k. split; [assumption|apply String.eqb_refl]. }
  congruence.
Qed.

Lemma NoDup_firstn (n : nat) (l : list string) : NoDup l -> NoDup (firstn n l).
Proof.
  intros H. rewrite <- (firstn_skipn n l) in H.
  now apply NoDup_app_remove_r in H.
Qed.

(** Each ranking returns 10 symbols, or all of them when fewer are tracked,
    and no symbol twice. *)
Theorem top_lists_size (changes : dict float) :
  wf changes = true ->
  List.length (top_gainers changes) = Nat.min 10 (List.length changes)
  /\ List.length (top_losers changes) = Nat.min 10 (List.length changes)
  /\ NoDup (top_gainers changes)
  /\ NoDup (top_losers changes).
Proof.
  intros Hwf. apply unique_NoDup in Hwf. unfold top_gainers, top_losers.
  rewrite !length_firstn.
  rewrite (Permutation_length (sorted_reverse_perm _ (changes_get changes) (keys changes))).
  rewrite (Permutation_length (sorted_perm _ (changes_get changes) (keys changes))).
  unfold keys at 1 2. rewrite !length_map.
  repeat split; try reflexivity; apply NoDup_firstn.
  - apply (Permutation_NoDup
             (Permutation_sym (sorted_reverse_perm _ (changes_get changes) (keys changes)))
             Hwf).
  - apply (Permutation_NoDup
             (Permutation_sym (sorted_perm _ (changes_get changes) (keys changes)))
             Hwf).
Qed.

Lemma top_lists_size_witness :
  wf twelve_changes = true
  /\ List.length (top_gainers twelve_changes) = 10
  /\ List.length (top_losers twelve_changes) = 10
  /\ NoDup (top_gainers twelve_changes)
  /\ NoDup (top_losers twelve_changes).
Proof.
  split; [reflexivity|].
  apply (top_lists_size twelve_changes). reflexivity.
Defined.

Lemma StronglySorted_across {A : Type} (R : A -> A -> Prop) (l1 l2 : list A) :
  StronglySorted R (l1 ++ l2) ->
  forall a b, In a l1 -> In b l2 -> R a b.
Proof.
  induction l1 as [|x l1 IH]; intros H a b Ha Hb; [contradiction|].
  simpl in H. inversion_clear H as [|? ? Hs Hx].
  destruct Ha as [->|Ha]; [|now apply IH].
  rewrite Forall_forall in Hx. apply Hx. apply in_or_app. now right.
Qed.

Lemma In_skipn_rest (n : nat) (l : list string) (b : string) :
  In b l -> ~ In b (firstn n l) -> In b (skipn n l).
Proof.
  intros H Hn. rewrite <- (firstn_skipn n l) in H.
  apply in_app_or in H as [H|H]; [contradiction|assumption].
Qed.

(** When no change is NaN, the symbols a ranking leaves out are no better
    than the ones it returns: a symbol that is not among the top gainers
    has a change at most that of every top gainer, and one that is not
    among the top losers has a change at least that of every top loser. *)
Theorem top_lists_hold_the_extremes (changes : dict float) :
  comparable (changes_get changes) (keys changes) = true ->
  (forall a b,
     In a (top_gainers changes) -> In b (keys changes) ->
     ~ In b (top_gainers changes) ->
     (changes_get changes b <=? changes_get changes a)%float = true)
  /\ (forall a b,
        In a (top_losers changes) -> In b (keys changes) ->
        ~ In b (top_losers changes) ->
        (changes_get changes a <=? changes_get changes b)%float = true).
Proof.
  intros Hcmp. unfold top_gainers, top_losers. split; intros a b Ha Hb Hnb.
  - pose proof (sorted_reverse_descending _ (changes_get changes) _ Hcmp) as Hs.
    unfold descending in Hs.
    set (l := sorted_reverse (changes_get changes) (keys changes)) in *.
    rewrite <- (firstn_skipn 10 l) in Hs.
    apply (StronglySorted_across _ _ _ Hs a b Ha).
    apply In_skipn_rest; [|assumption].
    apply (Permutation_in _ (Permutation_sym (sorted_reverse_perm _ _ _)) Hb).
  - pose proof (sorted_ascending _ (changes_get changes) _ Hcmp) as Hs.
    unfold ascending in Hs.
    set (l := sorted (changes_get changes) (keys changes)) in *.
    rewrite <- (firstn_skipn 10 l) in Hs.
    apply (StronglySorted_across _ _ _ Hs a b Ha).
    apply In_skipn_rest; [|assumption].
    apply (Permutation_in _ (Permutation_sym (sorted_perm _ _ _)) Hb).
Qed.

Lemma top_lists_hold_the_extremes_witness :
  comparable (changes_get twelve_changes) (keys twelve_changes) = true
  /\ (forall a b,
        In a (top_gainers twelve_changes) -> In b (keys twelve_changes) ->
        ~ In b (top_gainers twelve_changes) ->
        (changes_get twelve_changes b <=? changes_get twelve_changes a)%float
        = true).
Proof.
  split; [reflexivity|].
  apply (top_lists_hold_the_extremes twelve_changes). reflexivity.
Defined.

(** ** More on the manual selection *)

Lemma manual_selection_splits_witness :
  comparable (changes_get twelve_changes) ["S03"; "S01"] = true
  /\ manual_selection ["S03"; "S01"] twelve_changes
     = Ok (filter (fun stock => (0 <? changes_get twelve_changes stock)%float)
             ["S03"; "S01"],
           filter (fun stock => negb (0 <? changes_get twelve_changes stock)%float)
             ["S03"; "S01"]).
Proof.
  split; [reflexivity|].
  apply (manual_selection_splits ["S03"; "S01"] twelve_changes);
    [|reflexivity].
  intros stock [<-|[<-|[]]]; reflexivity.
Defined.

Lemma select_by_change_unknown (test : float -> bool) (changes : dict float)
    (before after : list string) (stock : string) :
  (forall s, In s before -> contains s changes = true) ->
  contains stock changes = false ->
  select_by_change test changes (before ++ stock :: after)
  = Raise (KeyError stock).
Proof.
  intros Hb Hs. induction before as [|s before IH]; simpl.
  - unfold subscript. unfold contains in Hs.
    now destruct (get stock changes).
  - pose proof (Hb s (or_introl eq_refl)) as Hin. unfold contains in Hin.
    unfold subscript. destruct (get s changes); [|discriminate]. simpl.
    rewrite IH; [reflexivity|]. intros s' H'. apply Hb. now right.
Qed.

(** A selected stock without a change makes the manual selection raise
    [KeyError] for the first such stock. *)
Theorem manual_selection_unknown_stock (changes : dict float)
    (before after : list string) (stock : string) :
  (forall s, In s before -> contains s changes = true) ->
  contains stock changes = false ->
  manual_selection (before ++ stock :: after) changes = Raise (KeyError stock).
Proof.
  intros Hb Hs. unfold manual_selection.
  now rewrite select_by_change_unknown.
Qed.

Lemma manual_selection_unknown_stock_witness :
  contains "TSLA" twelve_changes = false
  /\ manual_selection (["S01"] ++ "TSLA" :: ["S02"]) twelve_changes
     = Raise (KeyError "TSLA").
Proof.
  split; [reflexivity|].
  apply (manual_selection_unknown_stock twelve_changes ["S01"] ["S02"] "TSLA");
    [|reflexivity].
  intros s [<-|[]]. reflexivity.
Defined.

(** * The figure of [plot_time_series] *)

Lemma get_setitem_same {V : Type} (k : string) (v : V) (d : dict V) :
  get k (setitem k v d) = Some v.
Proof.
  induction d as [|[k' v'] d IH]; simpl.
  - now rewrite String.eqb_refl.
  - destruct (String.eqb k k') eqn:E; simpl; [now rewrite String.eqb_refl|].
    now rewrite E.
Qed.

Lemma get_setitem_other {V : Type} (k k' : string) (v : V) (d : dict V) :
  String.eqb k k' = false -> get k (setitem k' v d) = get k d.
Proof.
  intros Hne. induction d as [|[k2 v2] d IH]; simpl.
  - now rewrite Hne.
  - destruct (String.eqb_spec k' k2) as [->|Hk]; simpl.
    + now rewrite Hne.
    + now rewrite IH.
Qed.

Lemma last_cons_nan (x : float) (l : list float) :
  last (x :: l) nan = last l x.
Proof.
  destruct l as [|y l]; [reflexivity|].
  change (last (x :: y :: l) nan) with (last (y :: l) nan).
  apply last_cons_default.
Qed.

Lemma column_has_rows (df : DataFrame) (stock : string) :
  frame_ok df = true -> index df <> [] ->
  contains stock (columns df) = true ->
  exists start_price rest, get stock (columns df) = Some (start_price :: rest).
Proof.
  unfold frame_ok, contains. rewrite andb_true_iff, forallb_forall.
  intros [_ Hrect] Hrows Hin.
  destruct (get stock (columns df)) as [[|x l]|] eqn:E; [|eauto|discriminate].
  apply get_In in E. apply Hrect in E. simpl in E.
  destruct (index df); [contradiction|discriminate].
Qed.

Section Plot.
Variable df : DataFrame.
Variable y_axis : y_axis_mode.

(** The percentage that the first loop files under a stock. *)
Let percent_of (stock : string) : float :=
  change_between Percentage_Change (hd nan (column_of df stock))
    (last (column_of df stock) nan).

Let raw_trace (stock : string) : trace string :=
  Trace stock (index df) (trace_values y_axis (column_of df stock)).

Lemma percent_changes_kept (k : string) (selected : list string) :
  forall percent_changes : dict float,
  get k percent_changes = Some (percent_of k) ->
  get k (fold_left (fun pc stock => setitem stock (percent_of stock) pc)
           selected percent_changes) = Some (percent_of k).
Proof.
  induction selected as [|s selected IH]; intros pc H; simpl; [assumption|].
  apply IH. destruct (String.eqb_spec k s) as [->|Hne].
  - apply get_setitem_same.
  - rewrite get_setitem_other; [assumption|]. now apply String.eqb_neq.
Qed.

Lemma percent_changes_filed (k : string) (selected : list string) :
  forall percent_changes : dict float,
  In k selected ->
  get k (fold_left (fun pc stock => setitem stock (percent_of stock) pc)
           selected percent_changes) = Some (percent_of k).
Proof.
  induction selected as [|s selected IH]; intros pc Hin; [contradiction|].
  simpl. destruct (String.eqb_spec k s) as [->|Hne].
  - apply percent_changes_kept, get_setitem_same.
  - apply IH. destruct Hin as [->|Hin]; [contradiction|assumption].
Qed.

Lemma plot_loop_traces (selected : list string) :
  forall (data : list (trace string)) (percent_changes : dict float),
  (forall stock, In stock selected ->
     exists start_price rest,
       get stock (columns df) = Some (start_price :: rest)) ->
  plot_loop df y_axis selected data percent_changes
  = Ok ((data ++ map raw_trace selected)%list,
        fold_left (fun pc stock => setitem stock (percent_of stock) pc)
          selected percent_changes).
Proof.
  induction selected as [|stock rest IH]; intros data pc Hcols; simpl.
  - now rewrite app_nil_r.
  - destruct (Hcols stock (or_introl eq_refl)) as (x & l & Hget).
    unfold subscript. rewrite Hget. cbn [bind].
    rewrite iloc_first. cbn [bind]. rewrite iloc_last. cbn [bind].
    rewrite IH by (intros s Hs; apply Hcols; now right).
    unfold raw_trace, percent_of, column_of, trace_values, change_between.
    rewrite Hget, last_cons_nan. simpl hd.
    rewrite <- app_assoc. simpl. now destruct y_axis.
Qed.

Lemma new_legend_labels (percent_changes : dict float) (stocks : list string) :
  (forall stock, In stock stocks ->
     (exists start_price rest,
        get stock (columns df) = Some (start_price :: rest))
     /\ get stock percent_changes = Some (percent_of stock)) ->
  new_legend df y_axis percent_changes (map raw_trace stocks)
  = Ok (map (fun stock => trace_label y_axis stock (column_of df stock)) stocks).
Proof.
  induction stocks as [|stock rest IH]; intros H; [reflexivity|].
  simpl. destruct (H stock (or_introl eq_refl)) as [(x & l & Hget) Hpc].
  rewrite IH by (intros s Hs; apply H; now right).
  unfold trace_label, column_of, subscript. cbn [raw_trace trace_name].
  rewrite Hget. destruct y_axis; cbn [bind].
  - rewrite Hpc. unfold percent_of, column_of. now rewrite Hget.
  - rewrite iloc_last. cbn [bind]. now rewrite last_cons_nan.
Qed.

Lemma rename_traces_labels (stocks : list string) :
  rename_traces (map raw_trace stocks)
    (map (fun stock => trace_label y_axis stock (column_of df stock)) stocks)
  = map (trace_of df y_axis) stocks.
Proof.
  unfold rename_traces. induction stocks as [|stock rest IH]; [reflexivity|].
  simpl. now rewrite IH.
Qed.

Lemma plot_time_series_traces (selected : list string) (title : string) :
  (forall stock, In stock selected ->
     exists start_price rest,
       get stock (columns df) = Some (start_price :: rest)) ->
  plot_time_series df selected y_axis title
  = Ok (Figure title "Time"
          (match y_axis with
           | Dollar_Value => "Price ($)"
           | Percentage_Change => "Change (%)"
           end)
          (map (trace_of df y_axis) selected)).
Proof.
  intros Hcols. unfold plot_time_series.
  rewrite (plot_loop_traces selected [] [] Hcols). cbn [bind fst snd app].
  rewrite new_legend_labels.
  - cbn [bind]. now rewrite rename_traces_labels.
  - intros stock Hin. split; [now apply Hcols|].
    now apply percent_changes_filed.
Qed.
End Plot.

Lemma legend_stock_of_trace (df : DataFrame) (y_axis : y_axis_mode)
    (stocks : list string) :
  map (fun t => legend_stock (trace_name t)) (map (trace_of df y_axis) stocks)
  = stocks.
Proof.
  rewrite map_map. rewrite <- (map_id stocks) at 2.
  apply map_ext. intros stock. now destruct y_axis.
Qed.

Lemma columns_have_rows (df : DataFrame) (selected : list string) :
  frame_ok df = true -> index df <> [] ->
  (forall stock, In stock selected -> contains stock (columns df) = true) ->
  forall stock, In stock selected ->
  exists start_price rest, get stock (columns df) = Some (start_price :: rest).
Proof.
  intros Hok Hrows Hin stock Hs. apply column_has_rows; auto.
Qed.

(** On a frame with rows, the figure has one trace per selected stock, in
    the order of the selection, each over all the rows of the frame. *)
Theorem plot_draws_each_stock (df : DataFrame) (selected : list string)
    (y_axis : y_axis_mode) (title : string) :
  frame_ok df = true -> index df <> [] ->
  (forall stock, In stock selected -> contains stock (columns df) = true) ->
  exists fig,
    plot_time_series df selected y_axis title = Ok fig
    /\ fig_title fig = title
    /\ map (fun t => legend_stock (trace_name t)) (fig_data fig) = selected
    /\ Forall (fun t => trace_x t = index df
                        /\ List.length (trace_y t) = List.length (index df))
         (fig_data fig).
Proof.
  intros Hok Hrows Hin.
  pose proof (columns_have_rows df selected Hok Hrows Hin) as Hcols.
  eexists. split; [apply (plot_time_series_traces df y_axis selected title Hcols)|].
  simpl. split; [reflexivity|]. split; [apply legend_stock_of_trace|].
  apply Forall_forall. intros t Ht.
  apply in_map_iff in Ht as (stock & <- & Hs). simpl. split; [reflexivity|].
  destruct (Hcols stock Hs) as (x & l & Hget).
  unfold column_of. rewrite Hget.
  unfold frame_ok in Hok. apply andb_true_iff in Hok as [_ Hrect].
  rewrite forallb_forall in Hrect. apply get_In in Hget.
  apply Hrect in Hget. simpl snd in Hget. apply Nat.eqb_eq in Hget.
  rewrite <- Hget. destruct y_axis; simpl; [reflexivity|].
  unfold percent_series. now rewrite length_map.
Qed.

Lemma plot_draws_each_stock_witness :
  frame_ok pair_frame = true
  /\ exists fig,
       plot_time_series pair_frame ["B"; "A"] Percentage_Change "Top 10 Gainers"
       = Ok fig
       /\ fig_title fig = "Top 10 Gainers"
       /\ map (fun t => legend_stock (trace_name t)) (fig_data fig) = ["B"; "A"]
       /\ Forall (fun t => trace_x t = index pair_frame
                           /\ List.length (trace_y t)
                              = List.length (index pair_frame))
            (fig_data fig).
Proof.
  split; [reflexivity|].
  apply (plot_draws_each_stock pair_frame ["B"; "A"] Percentage_Change
           "Top 10 Gainers"); [reflexivity|discriminate|].
  intros stock [<-|[<-|[]]]; reflexivity.
Defined.

Lemma calculate_changes_rows (df : DataFrame) (y_axis : y_axis_mode) :
  frame_ok df = true -> index df <> [] ->
  exists changes,
    calculate_changes df y_axis = Ok changes
    /\ keys changes = keys (columns df)
    /\ forall column start_price rest,
         get column (columns df) = Some (start_price :: rest) ->
         get column changes
         = Some (change_between y_axis start_price (last rest start_price)).
Proof.
  intros Hok Hrows.
  destruct (changes_loop_total y_axis (columns df) []) as [changes Hrun].
  { intros column values Hin ->.
    unfold frame_ok in Hok. apply andb_true_iff in Hok as [_ Hrect].
    rewrite forallb_forall in Hrect. apply Hrect in Hin. simpl in Hin.
    destruct (index df); [contradiction|discriminate]. }
  exists changes. split; [exact Hrun|].
  destruct (changes_get_column df y_axis changes Hok Hrun) as [Hk _].
  split; [exact Hk|]. intros column x l Hget.
  destruct (calculate_changes_column df y_axis column x l Hok Hget)
    as (changes' & Hrun' & _ & Hc).
  unfold calculate_changes in *. congruence.
Qed.

Lemma last_percent_series (start_price x : float) (l : list float) :
  last (percent_series start_price (x :: l)) nan
  = (((last l x - start_price) / start_price) * 100)%float.
Proof.
  unfold percent_series. revert x.
  induction l as [|y l IH]; intros x; [reflexivity|].
  change (last (map (fun price => ((price - start_price) / start_price * 100)%float)
                  (x :: y :: l)) nan)
    with (last (map (fun price => ((price - start_price) / start_price * 100)%float)
                  (y :: l)) nan).
  rewrite IH. f_equal. f_equal. f_equal.
  destruct l as [|z l]; [reflexivity|].
  change (last (y :: z :: l) x) with (last (z :: l) x).
  apply last_cons_default.
Qed.

(** What the figure tells about each stock, against the percentage change
    that [calculate_changes] computes for it. In dollar mode the trace is
    the column of prices and the legend carries that percentage; in
    percentage mode the trace ends at that percentage and the legend
    carries the last price. *)
Theorem plot_shows_the_percent_change (df : DataFrame)
    (selected : list string) (y_axis : y_axis_mode) (title : string) :
  frame_ok df = true -> index df <> [] ->
  (forall stock, In stock selected -> contains stock (columns df) = true) ->
  exists fig percent,
    plot_time_series df selected y_axis title = Ok fig
    /\ calculate_changes df Percentage_Change = Ok percent
    /\ Forall
         (fun t =>
            exists stock c column,
              get stock percent = Some c
              /\ get stock (columns df) = Some column
              /\ match y_axis with
                 | Dollar_Value =>
                     trace_name t = With_percent stock c /\ trace_y t = column
                 | Percentage_Change =>
                     trace_name t = With_price stock (last column nan)
                     /\ last (trace_y t) nan = c
                 end)
         (fig_data fig).
Proof.
  intros Hok Hrows Hin.
  pose proof (columns_have_rows df selected Hok Hrows Hin) as Hcols.
  destruct (calculate_changes_rows df Percentage_Change Hok Hrows)
    as (percent & Hrun & _ & Hpc).
  eexists. exists percent.
  split; [apply (plot_time_series_traces df y_axis selected title Hcols)|].
  split; [exact Hrun|]. simpl. apply Forall_forall. intros t Ht.
  apply in_map_iff in Ht as (stock & <- & Hs).
  destruct (Hcols stock Hs) as (x & l & Hget).
  exists stock, (change_between Percentage_Change x (last l x)), (x :: l).
  split; [now apply Hpc|]. split; [exact Hget|].
  unfold trace_of, column_of. rewrite Hget.
  destruct y_axis; cbn [trace_name trace_y trace_label trace_values hd].
  - rewrite last_cons_nan. now split.
  - split; [reflexivity|]. apply (last_percent_series x x l).
Qed.

Lemma plot_shows_the_percent_change_witness :
  frame_ok pair_frame = true
  /\ exists fig percent,
       plot_time_series pair_frame ["B"] Dollar_Value "Selected Gainers" = Ok fig
       /\ calculate_changes pair_frame Percentage_Change = Ok percent
       /\ Forall
            (fun t =>
               exists stock c column,
                 get stock percent = Some c
                 /\ get stock (columns pair_frame) = Some column
                 /\ trace_name t = With_percent stock c /\ trace_y t = column)
            (fig_data fig).
Proof.
  split; [reflexivity|].
  apply (plot_shows_the_percent_change pair_frame ["B"] Dollar_Value
           "Selected Gainers"); [reflexivity|discriminate|].
  intros stock [<-|[]]; reflexivity.
Defined.

Lemma plot_loop_unknown (df : DataFrame) (y_axis : y_axis_mode)
    (before after : list string) (stock : string) :
  forall (data : list (trace string)) (percent_changes : dict float),
  (forall s, In s before ->
     exists start_price rest, get s (columns df) = Some (start_price :: rest)) ->
  contains stock (columns df) = false ->
  plot_loop df y_axis (before ++ stock :: after) data percent_changes
  = Raise (KeyError stock).
Proof.
  induction before as [|s before IH]; intros data pc Hb Hs; simpl.
  - unfold subscript. unfold contains in Hs.
    now destruct (get stock (columns df)).
  - destruct (Hb s (or_introl eq_refl)) as (x & l & Hget).
    unfold subscript. rewrite Hget. cbn [bind].
    rewrite iloc_first. cbn [bind]. rewrite iloc_last. cbn [bind].
    apply IH; [|assumption]. intros s' H'. apply Hb. now right.
Qed.

(** A stock that is not a column of the frame makes [plot_time_series]
    raise [KeyError] for the first such stock; no figure is produced. *)
Theorem plot_unknown_stock (df : DataFrame) (y_axis : y_axis_mode)
    (title : string) (before after : list string) (stock : string) :
  frame_ok df = true -> index df <> [] ->
  (forall s, In s before -> contains s (columns df) = true) ->
  contains stock (columns df) = false ->
  plot_time_series df (before ++ stock :: after) y_axis title
  = Raise (KeyError stock).
Proof.
  intros Hok Hrows Hb Hs. unfold plot_time_series.
  rewrite plot_loop_unknown; [reflexivity| |assumption].
  now apply columns_have_rows.
Qed.

Lemma plot_unknown_stock_witness :
  frame_ok pair_frame = true
  /\ contains "TSLA" (columns pair_frame) = false
  /\ plot_time_series pair_frame (["A"] ++ "TSLA" :: ["B"]) Dollar_Value
       "Selected Gainers" = Raise (KeyError "TSLA").
Proof.
  repeat (split; [reflexivity|]).
  apply (plot_unknown_stock pair_frame Dollar_Value "Selected Gainers"
           ["A"] ["B"] "TSLA"); try reflexivity; try discriminate.
  intros s [<-|[]]. reflexivity.
Defined.

(** * What is shown for a selection mode *)

Lemma contains_keys {V : Type} (k : string) (d : dict V) :
  contains k d = true <-> In k (keys d).
Proof.
  unfold contains. induction d as [|[k' v] d IH]; simpl.
  - split; [discriminate|contradiction].
  - destruct (String.eqb_spec k k') as [->|Hne].
    + split; [now left|reflexivity].
    + rewrite IH. split; [now right|]. intros [H|H]; [congruence|assumption].
Qed.

Lemma filter_split_perm (f : string -> bool) (l : list string) :
  Permutation (filter f l ++ filter (fun x => negb (f x)) l) l.
Proof.
  induction l as [|x l IH]; simpl; [constructor|].
  destruct (f x); simpl.
  - now constructor.
  - rewrite <- Permutation_middle. now constructor.
Qed.

Lemma chart_if_any_stocks (df : DataFrame) (y_axis : y_axis_mode)
    (title : string) (stocks : list string) :
  (forall stock, In stock stocks ->
     exists start_price rest,
       get stock (columns df) = Some (start_price :: rest)) ->
  exists l,
    chart_if_any df stocks y_axis title = Ok l
    /\ stocks_shown l = stocks
    /\ (stocks <> [] -> l <> [])
    /\ Forall (fun s => exists fig, s = Chart fig /\ fig_data fig <> []) l.
Proof.
  intros Hcols. destruct stocks as [|stock rest].
  - exists []. simpl. repeat split; auto.
  - unfold chart_if_any.
    rewrite (plot_time_series_traces df y_axis (stock :: rest) title Hcols).
    eexists. split; [reflexivity|]. split; [|split].
    + unfold stocks_shown. simpl flat_map. rewrite app_nil_r.
      apply (legend_stock_of_trace df y_axis (stock :: rest)).
    + discriminate.
    + constructor; [|constructor]. eexists. split; [reflexivity|]. discriminate.
Qed.

Lemma stocks_shown_app (l1 l2 : list shown) :
  stocks_shown (l1 ++ l2) = (stocks_shown l1 ++ stocks_shown l2)%list.
Proof. unfold stocks_shown. apply flat_map_app. Qed.

(** Manual selection on a frame with rows, for selected stocks that are
    columns and whose changes are not NaN: what is shown is one or two
    charts, none without a trace, and together they draw every selected
    stock exactly as often as it was selected. *)
Theorem manual_charts_cover_selection (df : DataFrame) (y_axis : y_axis_mode)
    (changes : dict float) (selected : list string) :
  frame_ok df = true -> index df <> [] ->
  calculate_changes df y_axis = Ok changes ->
  selected <> [] ->
  (forall stock, In stock selected -> contains stock (columns df) = true) ->
  comparable (changes_get changes) selected = true ->
  exists l,
    show_selection df changes y_axis Manual_Selection selected = Ok l
    /\ l <> []
    /\ Permutation (stocks_shown l) selected
    /\ Forall (fun s => exists fig, s = Chart fig /\ fig_data fig <> []) l.
Proof.
  intros Hok Hrows Hrun Hne Hin Hcmp.
  destruct (changes_get_column df y_axis changes Hok Hrun) as [Hk _].
  assert (Hch : forall stock, In stock selected -> contains stock changes = true).
  { intros stock Hs. apply contains_keys. rewrite Hk. apply contains_keys.
    now apply Hin. }
  pose proof (columns_have_rows df selected Hok Hrows Hin) as Hcols.
  unfold show_selection.
  rewrite (manual_selection_splits selected changes Hch Hcmp). cbn [bind fst snd].
  set (f := fun stock => (0 <? changes_get changes stock)%float).
  destruct (chart_if_any_stocks df y_axis "Selected Gainers" (filter f selected))
    as (lg & Hg & Hsg & Hng & Hfg).
  { intros stock Hs. apply filter_In in Hs as [Hs _]. now apply Hcols. }
  destruct (chart_if_any_stocks df y_axis "Selected Losers"
              (filter (fun stock => negb (f stock)) selected))
    as (ll & Hl & Hsl & Hnl & Hfl).
  { intros stock Hs. apply filter_In in Hs as [Hs _]. now apply Hcols. }
  destruct selected as [|s0 rest]; [contradiction|].
  subst f. cbv beta in *.
  rewrite Hg. cbn [bind]. rewrite Hl. cbn [bind]. exists (lg ++ ll)%list.
  split; [reflexivity|]. split; [|split].
  - intros Happ. apply app_eq_nil in Happ as [-> ->].
    change (stocks_shown []) with (@nil string) in Hsg, Hsl.
    pose proof (filter_split_perm
                  (fun stock => (0 <? changes_get changes stock)%float)
                  (s0 :: rest)) as P.
    cbv beta in P. rewrite <- Hsg, <- Hsl in P. simpl in P.
    now apply Permutation_nil in P.
  - rewrite stocks_shown_app, Hsg, Hsl.
    apply (filter_split_perm
             (fun stock => (0 <? changes_get changes stock)%float)).
  - apply Forall_app. now split.
Qed.

Lemma manual_charts_cover_selection_witness :
  frame_ok pair_frame = true
  /\ calculate_changes pair_frame Dollar_Value
     = Ok [("A", 10%float); ("B", 5%float)]
  /\ comparable (changes_get [("A", 10%float); ("B", 5%float)]) ["B"; "A"]
     = true
  /\ exists l,
       show_selection pair_frame [("A", 10%float); ("B", 5%float)] Dollar_Value
         Manual_Selection ["B"; "A"] = Ok l
       /\ l <> []
       /\ Permutation (stocks_shown l) ["B"; "A"]
       /\ Forall (fun s => exists fig, s = Chart fig /\ fig_data fig <> []) l.
Proof.
  repeat (split; [vm_compute; reflexivity|]).
  apply (manual_charts_cover_selection pair_frame Dollar_Value
           [("A", 10%float); ("B", 5%float)] ["B"; "A"]);
    try (vm_compute; reflexivity); try discriminate.
  intros stock [<-|[<-|[]]]; reflexivity.
Defined.

Lemma nan_is_on_neither_side (c : float) :
  is_nan c = true -> (0 <? c)%float = false /\ (c <=? 0)%float = false.
Proof.
  intros H. apply is_nan_spec in H.
  rewrite ltb_spec, leb_spec, H. split; [|reflexivity].
  now destruct (Prim2SF 0).
Qed.

(** Manual selection of stocks whose changes are all NaN shows nothing at
    all: no chart, and not the request to select a stock either. *)
Theorem manual_nan_selection_shows_nothing (df : DataFrame)
    (y_axis : y_axis_mode) (changes : dict float) (selected : list string) :
  selected <> [] ->
  (forall stock, In stock selected ->
     exists c, get stock changes = Some c /\ is_nan c = true) ->
  show_selection df changes y_axis Manual_Selection selected = Ok [].
Proof.
  intros Hne Hnan. unfold show_selection, manual_selection.
  assert (Hch : forall stock, In stock selected -> contains stock changes = true).
  { intros stock Hs. destruct (Hnan stock Hs) as (c & Hc & _).
    unfold contains. now rewrite Hc. }
  rewrite !select_by_change_filter by assumption. cbn [bind fst snd].
  assert (Hg : filter (fun stock => (0 <? changes_get changes stock)%float)
                 selected = []).
  { clear Hne Hch. induction selected as [|s rest IH]; [reflexivity|].
    simpl. destruct (Hnan s (or_introl eq_refl)) as (c & Hc & Hn).
    unfold changes_get at 1. rewrite Hc.
    rewrite (proj1 (nan_is_on_neither_side c Hn)).
    apply IH. intros s' H'. apply Hnan. now right. }
  assert (Hl : filter (fun stock => (changes_get changes stock <=? 0)%float)
                 selected = []).
  { clear Hne Hch Hg. induction selected as [|s rest IH]; [reflexivity|].
    simpl. destruct (Hnan s (or_introl eq_refl)) as (c & Hc & Hn).
    unfold changes_get at 1. rewrite Hc.
    rewrite (proj2 (nan_is_on_neither_side c Hn)).
    apply IH. intros s' H'. apply Hnan. now right. }
  rewrite Hg, Hl. now destruct selected.
Qed.

Lemma manual_nan_selection_shows_nothing_witness :
  show_selection late_frame late_changes Dollar_Value Manual_Selection ["B"]
  = Ok [].
Proof.
  apply (manual_nan_selection_shows_nothing late_frame Dollar_Value
           late_changes ["B"]); [discriminate|].
  intros stock [<-|[]]. exists nan. split; reflexivity.
Defined.



(** * More on adding a stock *)





(** Add Stock never loses what is tracked: whatever the input and whatever
    the sources answer, the symbols stay distinct, every tracked symbol
    keeps its name, and the pending removal is not touched. *)
Theorem add_stock_keeps_what_is_tracked (yf_info : info_source)
    (new_stock : string) (w : world) :
  wf (tech_stocks (session w)) = true ->
  wf (tech_stocks (session (add_stock yf_info new_stock w))) = true
  /\ (forall k v,
        get k (tech_stocks (session w)) = Some v ->
        get k (tech_stocks (session (add_stock yf_info new_stock w))) = Some v)
  /\ remove_symbol (session (add_stock yf_info new_stock w))
     = remove_symbol (session w)
  /\ show_confirmation (session (add_stock yf_info new_stock w))
     = show_confirmation (session w).
Proof.
  intros Hwf. unfold add_stock.
  destruct new_stock as [|c rest]; [auto|].
  set (up := upper (String c rest)).
  destruct (contains up (tech_stocks (session w))) eqn:Hin; simpl; [auto|].
  destruct (yf_info up) as [stock_info|e]; [|simpl; auto].
  destruct (subscript stock_info "longName") as [long_name|e]; [|simpl; auto].
  assert (Hkeep : forall k v,
            get k (tech_stocks (session w)) = Some v ->
            get k (setitem up long_name (tech_stocks (session w))) = Some v).
  { intros k v Hk. rewrite get_setitem_other; [assumption|].
    apply String.eqb_neq. intros ->. unfold contains in Hin.
    now rewrite Hk in Hin. }
  unfold save_tracked_stocks. simpl.
  destruct (writable (disk w)); simpl;
    (split; [now apply wf_setitem|]; split; [exact Hkeep|]; auto).
Qed.

Lemma add_stock_keeps_what_is_tracked_witness :
  wf (tech_stocks (session read_only_two)) = true
  /\ wf (tech_stocks (session (add_stock apple_info "msft" read_only_two)))
     = true
  /\ (forall k v,
        get k (tech_stocks (session read_only_two)) = Some v ->
        get k (tech_stocks (session (add_stock apple_info "msft" read_only_two)))
        = Some v).
Proof.
  split; [reflexivity|].
  destruct (add_stock_keeps_what_is_tracked apple_info "msft" read_only_two
              eq_refl) as (H1 & H2 & _).
  split; [exact H1|exact H2].
Defined.



(** * More on removing a stock *)

Lemma get_filter_other {V : Type} (symbol k : string) (d : dict V) :
  String.eqb symbol k = false ->
  get k (filter (fun kv => negb (String.eqb symbol (fst kv))) d) = get k d.
Proof.
  intros Hne. induction d as [|[k' v] d IH]; simpl; [reflexivity|].
  destruct (String.eqb_spec symbol k') as [<-|Hk]; simpl.
  - rewrite String.eqb_sym, Hne. exact IH.
  - now rewrite IH.
Qed.

Lemma keys_filter {V : Type} (symbol : string) (d : dict V) :
  keys (filter (fun kv => negb (String.eqb symbol (fst kv))) d)
  = filter (fun k => negb (String.eqb symbol k)) (keys d).
Proof.
  induction d as [|[k v] d IH]; simpl; [reflexivity|].
  destruct (String.eqb symbol k); simpl; now rewrite IH.
Qed.

(** Yes on a file that cannot be written: the run stops with the
    exception, the symbol is gone from the session's mapping, the file
    still holds it, and the confirmation stays pending. *)
Theorem removal_on_unwritable_file (w : world) (symbol : string) :
  contains symbol (tech_stocks (session w)) = true ->
  writable (disk w) = false ->
  exists w',
    confirm_remove (request_removal symbol w) = (Raise PermissionError, w')
    /\ get symbol (tech_stocks (session w')) = None
    /\ disk w' = disk w
    /\ show_confirmation (session w') = true.
Proof.
  intros Hin Hw. unfold confirm_remove, request_removal. simpl.
  destruct (delitem symbol (tech_stocks (session w))) as [stocks|e] eqn:Hdel.
  2:{ unfold delitem in Hdel. rewrite Hin in Hdel. discriminate. }
  unfold save_tracked_stocks. simpl. rewrite Hw.
  eexists. split; [reflexivity|]. simpl.
  destruct (delitem_absent _ _ _ Hdel) as [Hget _]. auto.
Qed.

Lemma removal_on_unwritable_file_witness :
  contains "XOM" (tech_stocks (session read_only_two)) = true
  /\ writable (disk read_only_two) = false
  /\ exists w',
       confirm_remove (request_removal "XOM" read_only_two)
       = (Raise PermissionError, w')
       /\ get "XOM" (tech_stocks (session w')) = None
       /\ disk w' = disk read_only_two
       /\ show_confirmation (session w') = true.
Proof.
  repeat (split; [reflexivity|]).
  apply (removal_on_unwritable_file read_only_two "XOM"); reflexivity.
Defined.

(** Yes for a symbol that is not tracked raises [KeyError] and changes
    nothing: the confirmation stays pending. *)
Theorem removal_of_untracked_symbol (w : world) (symbol : string) :
  contains symbol (tech_stocks (session w)) = false ->
  confirm_remove (request_removal symbol w)
  = (Raise (KeyError symbol), request_removal symbol w).
Proof.
  intros Hin. unfold confirm_remove, request_removal, delitem. simpl.
  now rewrite Hin.
Qed.

Lemma removal_of_untracked_symbol_witness :
  contains "TSLA" (tech_stocks (session tracking_two)) = false
  /\ confirm_remove (request_removal "TSLA" tracking_two)
     = (Raise (KeyError "TSLA"), request_removal "TSLA" tracking_two).
Proof.
  split; [reflexivity|].
  apply (removal_of_untracked_symbol tracking_two "TSLA"). reflexivity.
Defined.

(** A confirmed removal takes out that symbol only: the other symbols keep
    their names and their order, and stay distinct. *)
Theorem removal_keeps_the_others (w : world) (symbol : string) :
  contains symbol (tech_stocks (session w)) = true ->
  writable (disk w) = true ->
  wf (tech_stocks (session w)) = true ->
  exists w',
    confirm_remove (request_removal symbol w) = (Ok tt, w')
    /\ keys (tech_stocks (session w'))
       = filter (fun k => negb (String.eqb symbol k))
           (keys (tech_stocks (session w)))
    /\ (forall k, k <> symbol ->
          get k (tech_stocks (session w')) = get k (tech_stocks (session w)))
    /\ wf (tech_stocks (session w')) = true.
Proof.
  intros Hin Hw Hwf. unfold confirm_remove, request_removal, delitem. simpl.
  rewrite Hin. unfold save_tracked_stocks. simpl. rewrite Hw.
  eexists. split; [reflexivity|]. simpl. split; [apply keys_filter|]. split.
  - intros k Hk. apply get_filter_other. apply String.eqb_neq. congruence.
  - now apply wf_filter.
Qed.

Lemma removal_keeps_the_others_witness :
  contains "AAPL" (tech_stocks (session tracking_two)) = true
  /\ writable (disk tracking_two) = true
  /\ wf (tech_stocks (session tracking_two)) = true
  /\ exists w',
       confirm_remove (request_removal "AAPL" tracking_two) = (Ok tt, w')
       /\ keys (tech_stocks (session w'))
          = filter (fun k => negb (String.eqb "AAPL" k))
              (keys (tech_stocks (session tracking_two)))
       /\ (forall k, k <> "AAPL" ->
             get k (tech_stocks (session w'))
             = get k (tech_stocks (session tracking_two)))
       /\ wf (tech_stocks (session w')) = true.
Proof.
  repeat (split; [reflexivity|]).
  apply (removal_keeps_the_others tracking_two "AAPL"); reflexivity.
Defined.

(** Of two Remove clicks before a Yes, the last one counts: the Yes removes
    the symbol of the second click and leaves the first one tracked. *)
Theorem last_removal_request_wins (w : world) (first second : string) :
  first <> second ->
  contains second (tech_stocks (session w)) = true ->
  writable (disk w) = true ->
  exists w',
    confirm_remove (request_removal second (request_removal first w))
    = (Ok tt, w')
    /\ get second (tech_stocks (session w')) = None
    /\ get first (tech_stocks (session w')) = get first (tech_stocks (session w)).
Proof.
  intros Hne Hin Hw. unfold confirm_remove, request_removal. simpl.
  destruct (delitem second (tech_stocks (session w))) as [stocks|e] eqn:Hdel.
  2:{ unfold delitem in Hdel. rewrite Hin in Hdel. discriminate. }
  unfold save_tracked_stocks. simpl. rewrite Hw.
  eexists. split; [reflexivity|]. simpl.
  destruct (delitem_absent _ _ _ Hdel) as [Hget _]. split; [exact Hget|].
  unfold delitem in Hdel. rewrite Hin in Hdel. injection Hdel as <-.
  apply get_filter_other. apply String.eqb_neq. congruence.
Qed.

Lemma last_removal_request_wins_witness :
  "AAPL" <> "XOM"
  /\ contains "XOM" (tech_stocks (session tracking_two)) = true
  /\ writable (disk tracking_two) = true
  /\ exists w',
       confirm_remove (request_removal "XOM" (request_removal "AAPL" tracking_two))
       = (Ok tt, w')
       /\ get "XOM" (tech_stocks (session w')) = None
       /\ get "AAPL" (tech_stocks (session w'))
          = get "AAPL" (tech_stocks (session tracking_two)).
Proof.
  split; [discriminate|]. repeat (split; [reflexivity|]).
  apply (last_removal_request_wins tracking_two "AAPL" "XOM");
    [discriminate|reflexivity|reflexivity].
Defined.

(** After a confirmed removal nothing is pending: a further Yes or No
    changes nothing. *)
Theorem nothing_pending_after_removal (w : world) (symbol : string) :
  contains symbol (tech_stocks (session w)) = true ->
  writable (disk w) = true ->
  exists w',
    confirm_remove (request_removal symbol w) = (Ok tt, w')
    /\ confirm_remove w' = (Ok tt, w')
    /\ cancel_remove w' = w'.
Proof.
  intros Hin Hw. unfold confirm_remove at 1. unfold request_removal, delitem.
  simpl. rewrite Hin. unfold save_tracked_stocks. simpl. rewrite Hw.
  eexists. split; [reflexivity|]. split; reflexivity.
Qed.

Lemma nothing_pending_after_removal_witness :
  contains "AAPL" (tech_stocks (session tracking_two)) = true
  /\ writable (disk tracking_two) = true
  /\ exists w',
       confirm_remove (request_removal "AAPL" tracking_two) = (Ok tt, w')
       /\ confirm_remove w' = (Ok tt, w')
       /\ cancel_remove w' = w'.
Proof.
  repeat (split; [reflexivity|]).
  apply (nothing_pending_after_removal tracking_two "AAPL"); reflexivity.
Defined.

Lemma frame_of_aligned_series_witness :
  paired_data <> [] /\ ascending_labels [1; 2]%Z = true
  /\ DataFrame_of_dict paired_data
     = Frame [1; 2]%Z
         (map (fun kv => (fst kv, map snd (snd kv))) paired_data).
Proof.
  split; [discriminate|]. split; [reflexivity|].
  apply (frame_of_aligned_series paired_data [1; 2]%Z);
    [discriminate|reflexivity|].
  intros k s [[= <- <-]|[[= <- <-]|[]]]; reflexivity.
Defined.
